(** * troposphere_gen.specification: the CloudFormation specification model

    A shallow embedding of [troposphere_gen/specification.py] (classes
    [Attribute], [Property] and [Resource]) together with the properties of
    the model builder that the specification document states.

    The Python objects are built by constructors that mutate [self]; here
    every method takes the object under construction and returns either the
    updated object or the exception that unwound the call. *)

From Stdlib Require Import String List ZArith Bool.
Import ListNotations.
Local Open Scope string_scope.
Local Open Scope list_scope.

(** ** Python values

    The definitions handed to the parser come out of [json.load]: [None],
    booleans, integers, floats, strings, lists and string-keyed dicts.  A
    float is carried by its 64-bit pattern; the parser never looks inside
    a number.  A dict is the list of its items in insertion order. *)

#[local] Unset Elimination Schemes.

Inductive value : Type :=
| VNone : value
| VBool (b : bool) : value
| VInt (n : Z) : value
| VFloat (bits : Z) : value
| VStr (s : string) : value
| VList (l : list value) : value
| VDict (d : list (string * value)) : value.

#[local] Set Elimination Schemes.

(** Induction that reaches the elements of a list and the values of a dict. *)
Definition value_ind (P : value -> Prop)
    (HNone : P VNone)
    (HBool : forall b, P (VBool b))
    (HInt : forall n, P (VInt n))
    (HFloat : forall bits, P (VFloat bits))
    (HStr : forall s, P (VStr s))
    (HList : forall l, Forall P l -> P (VList l))
    (HDict : forall d, Forall (fun kv => P (snd kv)) d -> P (VDict d))
  : forall v, P v :=
  fix go (v : value) : P v :=
    match v with
    | VNone => HNone
    | VBool b => HBool b
    | VInt n => HInt n
    | VFloat bits => HFloat bits
    | VStr s => HStr s
    | VList l =>
        HList l ((fix elems (l : list value) : Forall P l :=
                    match l with
                    | [] => Forall_nil _
                    | x :: rest => Forall_cons x (go x) (elems rest)
                    end) l)
    | VDict d =>
        HDict d ((fix entries (d : list (string * value))
                    : Forall (fun kv => P (snd kv)) d :=
                    match d with
                    | [] => Forall_nil _
                    | kv :: rest =>
                        @Forall_cons _ (fun kv => P (snd kv)) kv rest
                          (go (snd kv)) (entries rest)
                    end) d)
    end.

(** ** Dicts: insertion-ordered association lists with unique keys *)

Module Dict.

Definition t (A : Type) : Type := list (string * A).

Definition empty {A : Type} : t A := [].

(** [d.get(k)], first (and for a well-formed dict, only) binding of [k]. *)
Fixpoint get {A : Type} (d : t A) (k : string) : option A :=
  match d with
  | [] => None
  | (k', x) :: rest => if String.eqb k' k then Some x else get rest k
  end.

(** [k in d] *)
Definition mem {A : Type} (k : string) (d : t A) : bool :=
  match get d k with Some _ => true | None => false end.

(** [d[k] = x]: an existing key keeps its position, a new key goes last. *)
Fixpoint set {A : Type} (d : t A) (k : string) (x : A) : t A :=
  match d with
  | [] => [(k, x)]
  | (k', y) :: rest =>
      if String.eqb k' k then (k', x) :: rest else (k', y) :: set rest k x
  end.

Definition keys {A : Type} (d : t A) : list string := map fst d.

(** A Python dict never holds a key twice. *)
Definition wf {A : Type} (d : t A) : Prop := NoDup (keys d).

(** [if k in d: some d[k]  else: none], written so that the value handed
    to [some] is visibly a component of [d]. *)
Definition find {A B : Type} (k : string) (some : A -> B) (none : B)
  : t A -> B :=
  fix go (d : t A) : B :=
    match d with
    | [] => none
    | (k', x) :: rest => if String.eqb k' k then some x else go rest
    end.

End Dict.

(** ** Exceptions and results *)

(** [ValueError fmt arg] stands for [ValueError(fmt % arg)]: the message is
    the format with Python's [str(arg)] substituted for its [%s]. *)
Inductive exn : Type :=
| KeyError (key : string)
| ValueError (fmt : string) (arg : value)
| TypeError
| AttributeError.

Inductive result (A : Type) : Type :=
| Ok (a : A)
| Raise (e : exn).
Arguments Ok {A} a.
Arguments Raise {A} e.

Definition bind {A B : Type} (m : result A) (k : A -> result B) : result B :=
  match m with
  | Ok a => k a
  | Raise e => Raise e
  end.

Declare Scope py_scope.
Delimit Scope py_scope with py.
Notation "x <- m ;; k" := (bind m (fun x => k))
  (at level 61, m at next level, right associativity) : py_scope.
Local Open Scope py_scope.

Definition succeeds {A : Type} (m : result A) : bool :=
  match m with Ok _ => true | Raise _ => false end.

(** ** The operators the parser applies to a definition *)

Module Py.

(** [v == s] for a string literal [s]: only an equal [str] compares equal. *)
Definition eq_str (v : value) (s : string) : bool :=
  match v with
  | VStr t => String.eqb t s
  | _ => false
  end.

(** [needle in haystack] on two strings. *)
Definition substring (needle haystack : string) : bool :=
  match String.index 0 needle haystack with
  | Some _ => true
  | None => false
  end.

(** [k in v] for a string literal [k]: key membership on a dict, substring
    on a string, element equality on a list, [TypeError] on the rest. *)
Definition contains (k : string) (v : value) : result bool :=
  match v with
  | VDict d => Ok (Dict.mem k d)
  | VStr s => Ok (substring k s)
  | VList l => Ok (existsb (fun x => eq_str x k) l)
  | VNone | VBool _ | VInt _ | VFloat _ => Raise TypeError
  end.

(** [v[k]] for a string literal [k]. *)
Definition getitem (v : value) (k : string) : result value :=
  match v with
  | VDict d =>
      match Dict.get d k with
      | Some x => Ok x
      | None => Raise (KeyError k)
      end
  | _ => Raise TypeError
  end.

(** [v.items()] *)
Definition items (v : value) : result (Dict.t value) :=
  match v with
  | VDict d => Ok d
  | _ => Raise AttributeError
  end.

(** [for name, x in items: body], where the body updates the object under
    construction; the first exception ends the loop. *)
Definition for_items {A S : Type} (body : string -> A -> S -> result S)
  : Dict.t A -> S -> result S :=
  fix loop (items : Dict.t A) (self : S) : result S :=
    match items with
    | [] => Ok self
    | (name, x) :: rest => self' <- body name x self ;; loop rest self'
    end.

End Py.

(** ** troposphere_gen.types *)

(** Modelled from the spec: the classes [PrimitiveType], [Subproperty],
    [ListType] and [MapType] of [troposphere_gen.types], which the spec
    describes as opaque tags: a primitive tag and a subproperty reference
    wrap the value they are built from, a list or map type wraps exactly one
    of the two as its item type. *)
Inductive primitive : Type :=
| PrimitiveType (v : value).

Inductive subproperty : Type :=
| Subproperty (v : value).

Inductive item : Type :=
| PrimitiveItem (p : primitive)
| SubpropertyItem (s : subproperty).

Inductive structured : Type :=
| Direct (s : subproperty)
| ListType (i : item)
| MapType (i : item).

(** Python passes a [PrimitiveType] or a [Subproperty] where an item type
    or a [type] is expected without wrapping it. *)
Coercion PrimitiveItem : primitive >-> item.
Coercion SubpropertyItem : subproperty >-> item.
Coercion Direct : subproperty >-> structured.

(** ** class Attribute *)

Module Attribute.

Record t : Type := mk {
  name : string;
  item_type : option subproperty;
  primitive_item_type : option primitive;
  primitive_type : option primitive;
  type : option structured
}.

Definition set_primitive_type (p : primitive) (self : t) : t :=
  mk (name self) (item_type self) (primitive_item_type self)
     (Some p) (type self).

Definition set_type (ty : structured) (self : t) : t :=
  mk (name self) (item_type self) (primitive_item_type self)
     (primitive_type self) (Some ty).

(** The assignments of [__init__] before it calls [parse]. *)
Definition fresh (name : string) : t := mk name None None None None.

(** The two item branches shared by the List and the Map case. *)
Definition parse_item (wrap : item -> structured)
    (attributedict : value) (self : t) : result t :=
  has_primitive <- Py.contains "PrimitiveItemType" attributedict ;;
  if has_primitive then
    x <- Py.getitem attributedict "PrimitiveItemType" ;;
    Ok (set_type (wrap (PrimitiveType x)) self)
  else
    has_item <- Py.contains "ItemType" attributedict ;;
    if has_item then
      x <- Py.getitem attributedict "ItemType" ;;
      Ok (set_type (wrap (Subproperty x)) self)
    else Ok self.

Definition parse (attributedict : value) (self : t) : result t :=
  has_primitive <- Py.contains "PrimitiveType" attributedict ;;
  if has_primitive then
    x <- Py.getitem attributedict "PrimitiveType" ;;
    Ok (set_primitive_type (PrimitiveType x) self)
  else
    has_type <- Py.contains "Type" attributedict ;;
    if has_type then
      ty <- Py.getitem attributedict "Type" ;;
      if Py.eq_str ty "List" then parse_item ListType attributedict self
      else
        ty' <- Py.getitem attributedict "Type" ;;
        if Py.eq_str ty' "Map" then parse_item MapType attributedict self
        else
          ty'' <- Py.getitem attributedict "Type" ;;
          Ok (set_type (Subproperty ty'') self)
    else Ok self.

(** [Attribute(name, attributedict)] *)
Definition init (name : string) (attributedict : value) : result t :=
  parse attributedict (fresh name).

(** The invariant of the resolved type: [primitive_type] and [type] are
    never both set. *)
Definition at_most_one_type (self : t) : Prop :=
  primitive_type self = None \/ type self = None.

(** Neither item field holds a value. *)
Definition item_fields_unset (self : t) : Prop :=
  item_type self = None /\ primitive_item_type self = None.

End Attribute.

(** ** class Property(Attribute) *)

Module Property.

#[local] Unset Elimination Schemes.

Inductive t : Type := mk {
  base : Attribute.t;
  documentation : value;
  duplicate_allowed : value;
  required : value;
  _update_type : value;
  properties : Dict.t t
}.

#[local] Set Elimination Schemes.

Definition name (self : t) : string := Attribute.name (base self).
Definition primitive_type (self : t) := Attribute.primitive_type (base self).
Definition type (self : t) := Attribute.type (base self).
Definition item_type (self : t) := Attribute.item_type (base self).
Definition primitive_item_type (self : t) :=
  Attribute.primitive_item_type (base self).

Definition set_base (a : Attribute.t) (self : t) : t :=
  mk a (documentation self) (duplicate_allowed self) (required self)
     (_update_type self) (properties self).

Definition set_documentation (v : value) (self : t) : t :=
  mk (base self) v (duplicate_allowed self) (required self)
     (_update_type self) (properties self).

Definition set_duplicate_allowed (v : value) (self : t) : t :=
  mk (base self) (documentation self) v (required self)
     (_update_type self) (properties self).

Definition set_required (v : value) (self : t) : t :=
  mk (base self) (documentation self) (duplicate_allowed self) v
     (_update_type self) (properties self).

Definition set__update_type (v : value) (self : t) : t :=
  mk (base self) (documentation self) (duplicate_allowed self)
     (required self) v (properties self).

(** [self.properties[name] = p] *)
Definition set_property (name : string) (p : t) (self : t) : t :=
  mk (base self) (documentation self) (duplicate_allowed self)
     (required self) (_update_type self)
     (Dict.set (properties self) name p).

(** The assignments of [Property.__init__] and [Attribute.__init__]
    before [parse] runs. *)
Definition fresh (name : string) : t :=
  mk (Attribute.fresh name) VNone VNone VNone VNone Dict.empty.

(** The [update_type] property: getter and validating setter. *)
Definition update_type (self : t) : value := _update_type self.

Definition valid_update_type (update_type : value) : bool :=
  existsb (Py.eq_str update_type) ["Immutable"; "Mutable"; "Conditional"].

Definition set_update_type (update_type : value) (self : t) : result t :=
  if valid_update_type update_type
  then Ok (set__update_type update_type self)
  else Raise (ValueError "Invalid update type: %s" update_type).

(** [super(Property, self).parse(propertydict)] *)
Definition super_parse (propertydict : value) (self : t) : result t :=
  a <- Attribute.parse propertydict (base self) ;;
  Ok (set_base a self).

(** [parse] from the assignment of [update_type] on: the path of a
    property without a [Properties] key. *)
Definition parse_leaf (propertydict : value) (self : t) : result t :=
  u <- Py.getitem propertydict "UpdateType" ;;
  self <- set_update_type u self ;;
  r <- Py.getitem propertydict "Required" ;;
  let self := set_required r self in
  self <- super_parse propertydict self ;;
  has_dup <- Py.contains "DuplicatesAllowed" propertydict ;;
  if has_dup then
    dup <- Py.getitem propertydict "DuplicatesAllowed" ;;
    Ok (set_duplicate_allowed dup self)
  else Ok self.

(** [parse], with the constructor call [Property(name, subpropertydict)]
    of the loop unfolded to [parse subpropertydict (fresh name)]. *)
Fixpoint parse (propertydict : value) (self : t) {struct propertydict}
  : result t :=
  match propertydict with
  | VDict d =>
      doc <- Py.getitem propertydict "Documentation" ;;
      let self := set_documentation doc self in
      Dict.find "Properties"
        (fun sub =>
           match sub with
           | VDict items =>
               Py.for_items
                 (fun name subpropertydict self =>
                    p <- parse subpropertydict (fresh name) ;;
                    Ok (set_property name p self))
                 items self
           | _ => Raise AttributeError
           end)
        (parse_leaf propertydict self)
        d
  | _ => Raise TypeError
  end.

(** [Property(name, propertydict)] *)
Definition init (name : string) (propertydict : value) : result t :=
  parse propertydict (fresh name).

#[local] Unset Elimination Schemes.

(** [P] holds of a property and of every property nested below it. *)
Inductive Every (P : t -> Prop) : t -> Prop :=
| Every_node (self : t) :
    P self ->
    Forall (fun kp => Every P (snd kp)) (properties self) ->
    Every P self.

#[local] Set Elimination Schemes.

(** The fields a container property never assigns. *)
Definition leaf_fields_unset (self : t) : Prop :=
  required self = VNone /\ update_type self = VNone /\
  duplicate_allowed self = VNone /\
  primitive_type self = None /\ type self = None.

(** What holds of a property once its constructor has returned: its
    update type is unset or one of the three accepted values, its nested
    properties are stored under their own names, and nested properties
    exclude the leaf fields. *)
Definition consistent (self : t) : Prop :=
  (update_type self = VNone \/ valid_update_type (update_type self) = true) /\
  Forall (fun kp => fst kp = name (snd kp)) (properties self) /\
  (properties self <> [] -> leaf_fields_unset self).

End Property.

(** ** class Resource *)

Module Resource.

Record t : Type := mk {
  name : string;
  documentation : value;
  attributes : Dict.t Attribute.t;
  properties : Dict.t Property.t
}.

Definition set_documentation (v : value) (self : t) : t :=
  mk (name self) v (attributes self) (properties self).

(** [self.attributes[name] = a] *)
Definition set_attribute (k : string) (a : Attribute.t) (self : t) : t :=
  mk (name self) (documentation self) (Dict.set (attributes self) k a)
     (properties self).

(** [self.properties[name] = p] *)
Definition set_property (k : string) (p : Property.t) (self : t) : t :=
  mk (name self) (documentation self) (attributes self)
     (Dict.set (properties self) k p).

(** The assignments of [__init__] before it calls [parse]. *)
Definition fresh (name : string) : t := mk name VNone Dict.empty Dict.empty.

Definition parse_attributes (attrs : Dict.t value) (self : t) : result t :=
  Py.for_items
    (fun name attributedict self =>
       a <- Attribute.init name attributedict ;;
       Ok (set_attribute name a self))
    attrs self.

Definition parse_properties (props : Dict.t value) (self : t) : result t :=
  Py.for_items
    (fun name propertydict self =>
       p <- Property.init name propertydict ;;
       Ok (set_property name p self))
    props self.

Definition parse (resourcedict : value) (self : t) : result t :=
  doc <- Py.getitem resourcedict "Documentation" ;;
  let self := set_documentation doc self in
  attrs <- Py.getitem resourcedict "Attributes" ;;
  attrs <- Py.items attrs ;;
  self <- parse_attributes attrs self ;;
  props <- Py.getitem resourcedict "Properties" ;;
  props <- Py.items props ;;
  parse_properties props self.

(** [Resource(name, resourcedict)] *)
Definition init (name : string) (resourcedict : value) : result t :=
  parse resourcedict (fresh name).

End Resource.

(** ** Loop bodies that build one entry per item

    Both loops of the parser have the shape
    [for name, x in items: self.field[name] = Class(name, x)]. *)

Section BuildBody.

Context {A B S : Type}.
Variable build : string -> A -> result B.
Variable store : string -> B -> S -> S.

Definition build_body (k : string) (x : A) (s : S) : result S :=
  b <- build k x ;; Ok (store k b s).

(** [out] holds, in order, one entry per item, built from it under its key. *)
Definition built_from (items : Dict.t A) (out : Dict.t B) : Prop :=
  Forall2
    (fun kx kb => fst kb = fst kx /\ build (fst kx) (snd kx) = Ok (snd kb))
    items out.

End BuildBody.

(** What [Attribute.parse] may change: nothing, [primitive_type] alone, or [type]
    alone; the name and the two item fields are never assigned. *)
Inductive attribute_step (self a : Attribute.t) : Prop :=
| step_none : a = self -> attribute_step self a
| step_primitive (p : primitive) :
    a = Attribute.set_primitive_type p self -> attribute_step self a
| step_type (ty : structured) :
    a = Attribute.set_type ty self -> attribute_step self a.

(** ** Sample definitions *)

Definition sample_subproperties : Dict.t value :=
  [("Size",
    VDict [("Documentation", VStr "s"); ("PrimitiveType", VStr "Integer");
           ("UpdateType", VStr "Immutable"); ("Required", VBool false)])].

(** A container that also carries [Required] and [UpdateType]. *)
Definition sample_container : Dict.t value :=
  [("Documentation", VStr "d"); ("Required", VBool true);
   ("UpdateType", VStr "Mutable");
   ("Properties", VDict sample_subproperties)].

Definition sample_attributes : Dict.t value :=
  [("Arn", VDict [("PrimitiveType", VStr "String")]);
   ("Tags", VDict [("Type", VStr "List"); ("ItemType", VStr "Tag")])].

(** The leaf scenario of the specification: a list of strings. *)
Definition sample_leaf : Dict.t value :=
  [("Documentation", VStr "d"); ("Type", VStr "List");
   ("PrimitiveItemType", VStr "String");
   ("UpdateType", VStr "Mutable"); ("Required", VBool true)].

Definition sample_properties : Dict.t value :=
  [("Config", VDict sample_container); ("Names", VDict sample_leaf)].

Definition sample_resource : Dict.t value :=
  [("Documentation", VStr "r"); ("Attributes", VDict sample_attributes);
   ("Properties", VDict sample_properties)].

(** ** The keys each parser reads *)

(** Two definitions hold the same value, or both none, under each key. *)
Definition same_on (keys : list string) (d d' : Dict.t value) : Prop :=
  Forall (fun k => Dict.get d k = Dict.get d' k) keys.

Definition attribute_keys : list string :=
  ["PrimitiveType"; "Type"; "PrimitiveItemType"; "ItemType"].

Definition property_keys : list string :=
  ["Documentation"; "Properties"; "UpdateType"; "Required";
   "DuplicatesAllowed"] ++ attribute_keys.

Definition resource_keys : list string :=
  ["Documentation"; "Attributes"; "Properties"].

(** [sample_leaf] with its keys in another order and two keys that no
    parser reads. *)
Definition sample_leaf_shuffled : Dict.t value :=
  [("Required", VBool true); ("Comment", VStr "x");
   ("PrimitiveItemType", VStr "String"); ("UpdateType", VStr "Mutable");
   ("Type", VStr "List"); ("Documentation", VStr "d");
   ("Default", VInt 0)].


(** ** The same object under another name *)

Definition attribute_rename (name : string) (a : Attribute.t) : Attribute.t :=
  Attribute.mk name (Attribute.item_type a) (Attribute.primitive_item_type a)
    (Attribute.primitive_type a) (Attribute.type a).

Definition property_rename (name : string) (p : Property.t) : Property.t :=
  Property.set_base (attribute_rename name (Property.base p)) p.

Definition resource_rename (name : string) (r : Resource.t) : Resource.t :=
  Resource.mk name (Resource.documentation r) (Resource.attributes r)
    (Resource.properties r).

Definition result_map {A B : Type} (f : A -> B) (m : result A) : result B :=
  match m with
  | Ok a => Ok (f a)
  | Raise e => Raise e
  end.

(** * Properties *)

(** ** Dicts *)

Lemma get_In {A : Type} (d : Dict.t A) (k : string) (x : A) :
  Dict.get d k = Some x -> In (k, x) d.
Proof.
  induction d as [|[k' y] rest IH]; simpl; [discriminate|].
  destruct (String.eqb_spec k' k) as [->|Hne]; intros H.
  - injection H as ->. now left.
  - right. now apply IH.
Qed.

Lemma get_None_not_key {A : Type} (d : Dict.t A) (k : string) :
  Dict.get d k = None <-> ~ In k (Dict.keys d).
Proof.
  induction d as [|[k' y] rest IH]; simpl.
  - tauto.
  - destruct (String.eqb_spec k' k) as [->|Hne].
    + split; [discriminate | intros H; exfalso; apply H; now left].
    + rewrite IH. split; [intros H [Hk|Hk]; [now apply Hne | now apply H]
                         | intros H Hk; apply H; now right].
Qed.

Lemma find_get {A B : Type} (k : string) (some : A -> B) (none : B)
    (d : Dict.t A) :
  Dict.find k some none d =
  match Dict.get d k with Some x => some x | None => none end.
Proof.
  induction d as [|[k' y] rest IH]; simpl; [reflexivity|].
  destruct (String.eqb k' k); [reflexivity | exact IH].
Qed.

Lemma set_new_key {A : Type} (d : Dict.t A) (k : string) (x : A) :
  Dict.get d k = None -> Dict.set d k x = d ++ [(k, x)].
Proof.
  induction d as [|[k' y] rest IH]; simpl; [reflexivity|].
  destruct (String.eqb k' k); [discriminate|].
  intros H. now rewrite IH.
Qed.

Lemma keys_app {A : Type} (d d' : Dict.t A) :
  Dict.keys (d ++ d') = Dict.keys d ++ Dict.keys d'.
Proof. apply map_app. Qed.

(** ** Loops that build one entry per item *)

Section BuildLoop.

Context {A B S : Type}.
Variable build : string -> A -> result B.
Variable store : string -> B -> S -> S.
Variable view : S -> Dict.t B.
Hypothesis view_store :
  forall k b s, view (store k b s) = Dict.set (view s) k b.

Lemma built_from_keys (items : Dict.t A) (out : Dict.t B) :
  built_from build items out -> Dict.keys out = Dict.keys items.
Proof.
  induction 1 as [|kx kb items out [Hk _] _ IH]; simpl; [reflexivity|].
  now rewrite Hk, IH.
Qed.

Lemma built_from_length (items : Dict.t A) (out : Dict.t B) :
  built_from build items out -> length out = length items.
Proof.
  intros H. apply built_from_keys in H. unfold Dict.keys in H.
  now rewrite <- (length_map fst out), H, length_map.
Qed.

Lemma for_items_view (items : Dict.t A) :
  forall s s',
    Dict.wf items ->
    (forall k, In k (Dict.keys items) -> Dict.get (view s) k = None) ->
    Py.for_items (build_body build store) items s = Ok s' ->
    exists out, view s' = view s ++ out /\ built_from build items out.
Proof.
  induction items as [|[k x] rest IH]; intros s s' Hwf Hnew Hrun.
  - simpl in Hrun. injection Hrun as <-. exists []. split.
    + now rewrite app_nil_r.
    + constructor.
  - simpl in Hrun. unfold build_body at 1 in Hrun.
    destruct (build k x) as [b|e] eqn:Hb; simpl in Hrun; [|discriminate].
    inversion Hwf as [|? ? Hk Hrest]; subst.
    assert (Hview : view (store k b s) = view s ++ [(k, b)]).
    { rewrite view_store. apply set_new_key. apply Hnew. now left. }
    destruct (IH (store k b s) s' Hrest) as [out [Hout Hbuilt]].
    + intros k' Hk'. rewrite Hview. apply get_None_not_key.
      rewrite keys_app. simpl. intros Hin. apply in_app_or in Hin.
      destruct Hin as [Hin|[Heq|[]]].
      * revert Hin. apply get_None_not_key. apply Hnew. now right.
      * subst k'. now apply Hk.
    + exact Hrun.
    + exists ((k, b) :: out). split.
      * rewrite Hout, Hview, <- app_assoc. reflexivity.
      * constructor; [split; [reflexivity | exact Hb] | exact Hbuilt].
Qed.

Lemma for_items_frame {X : Type} (g : S -> X) (items : Dict.t A) :
  (forall k b s, g (store k b s) = g s) ->
  forall s s', Py.for_items (build_body build store) items s = Ok s' -> g s' = g s.
Proof.
  intros Hg. induction items as [|[k x] rest IH]; intros s s' Hrun.
  - simpl in Hrun. now injection Hrun as <-.
  - simpl in Hrun. unfold build_body at 1 in Hrun.
    destruct (build k x) as [b|e]; simpl in Hrun; [|discriminate].
    rewrite (IH _ _ Hrun). apply Hg.
Qed.

Lemma for_items_raise (items : Dict.t A) (k : string) (x : A) (e : exn) :
  In (k, x) items -> build k x = Raise e ->
  forall s, exists e', Py.for_items (build_body build store) items s = Raise e'.
Proof.
  intros Hin Hb. induction items as [|[k' x'] rest IH]; intros s.
  - destruct Hin.
  - simpl. unfold build_body at 1.
    destruct Hin as [Heq|Hin].
    + injection Heq as -> ->. rewrite Hb. simpl. now exists e.
    + destruct (build k' x') as [b|e0]; simpl.
      * now apply IH.
      * now exists e0.
Qed.

Lemma for_items_total (items : Dict.t A) :
  Forall (fun kx => exists b, build (fst kx) (snd kx) = Ok b) items ->
  forall s, exists s', Py.for_items (build_body build store) items s = Ok s'.
Proof.
  induction 1 as [|[k x] rest [b Hb] _ IH]; intros s; simpl.
  - now exists s.
  - unfold build_body at 1. simpl in Hb. rewrite Hb. simpl. apply IH.
Qed.

(** Whatever the loop stored is the result of a build of one of the items. *)
Lemma for_items_origin (P : string -> B -> Prop) (items : Dict.t A) :
  (forall k x b, In (k, x) items -> build k x = Ok b -> P k b) ->
  forall s s',
    Forall (fun kb => P (fst kb) (snd kb)) (view s) ->
    Py.for_items (build_body build store) items s = Ok s' ->
    Forall (fun kb => P (fst kb) (snd kb)) (view s').
Proof.
  induction items as [|[k x] rest IH]; intros HP s s' Hs Hrun.
  - simpl in Hrun. now injection Hrun as <-.
  - simpl in Hrun. unfold build_body at 1 in Hrun.
    destruct (build k x) as [b|e] eqn:Hb; simpl in Hrun; [|discriminate].
    apply (IH (fun k' x' b' Hin => HP k' x' b' (or_intror Hin))
              (store k b s) s'); [|exact Hrun].
    rewrite view_store.
    assert (Hkb : P k b) by (apply (HP k x b); [now left | exact Hb]).
    clear -Hs Hkb. induction (view s) as [|[k' y] d IHd]; simpl.
    + constructor; [exact Hkb | constructor].
    + apply Forall_cons_iff in Hs as [Hhd Htl].
      destruct (String.eqb_spec k' k) as [Heq|Hne].
      * constructor; [simpl; now rewrite Heq | exact Htl].
      * constructor; [exact Hhd | now apply IHd].
Qed.

End BuildLoop.

(** ** Attribute.parse on a dict *)

Ltac unfold_py :=
  unfold Py.contains, Py.getitem, Py.items, Dict.mem, bind in *.

Lemma attribute_parse_item_dict (wrap : item -> structured)
    (d : Dict.t value) (self : Attribute.t) :
  Attribute.parse_item wrap (VDict d) self =
  Ok match Dict.get d "PrimitiveItemType" with
     | Some x => Attribute.set_type (wrap (PrimitiveType x)) self
     | None =>
         match Dict.get d "ItemType" with
         | Some y => Attribute.set_type (wrap (Subproperty y)) self
         | None => self
         end
     end.
Proof.
  unfold Attribute.parse_item. unfold_py.
  destruct (Dict.get d "PrimitiveItemType"); [reflexivity|].
  destruct (Dict.get d "ItemType"); reflexivity.
Qed.

Lemma attribute_parse_dict (d : Dict.t value) (self : Attribute.t) :
  Attribute.parse (VDict d) self =
  match Dict.get d "PrimitiveType" with
  | Some x => Ok (Attribute.set_primitive_type (PrimitiveType x) self)
  | None =>
      match Dict.get d "Type" with
      | Some ty =>
          if Py.eq_str ty "List"
          then Attribute.parse_item ListType (VDict d) self
          else if Py.eq_str ty "Map"
          then Attribute.parse_item MapType (VDict d) self
          else Ok (Attribute.set_type (Subproperty ty) self)
      | None => Ok self
      end
  end.
Proof.
  unfold Attribute.parse. unfold_py.
  destruct (Dict.get d "PrimitiveType"); [reflexivity|].
  destruct (Dict.get d "Type") as [ty|]; [|reflexivity].
  destruct (Py.eq_str ty "List"); [reflexivity|].
  destruct (Py.eq_str ty "Map"); reflexivity.
Qed.

Lemma attribute_parse_dict_total (d : Dict.t value) (self : Attribute.t) :
  exists a, Attribute.parse (VDict d) self = Ok a.
Proof.
  rewrite attribute_parse_dict.
  destruct (Dict.get d "PrimitiveType"); [eauto|].
  destruct (Dict.get d "Type") as [ty|]; [|eauto].
  destruct (Py.eq_str ty "List");
    [rewrite attribute_parse_item_dict; eauto|].
  destruct (Py.eq_str ty "Map");
    [rewrite attribute_parse_item_dict; eauto | eauto].
Qed.

(** On anything but a dict, [parse] either raises or assigns nothing. *)
Lemma attribute_parse_other (v : value) (self a : Attribute.t) :
  (forall d, v <> VDict d) -> Attribute.parse v self = Ok a -> a = self.
Proof.
  intros Hv. unfold Attribute.parse. unfold_py.
  destruct v as [| | | | s | l | d]; try discriminate.
  - destruct (Py.substring "PrimitiveType" s); [discriminate|].
    destruct (Py.substring "Type" s); [discriminate|].
    now intros [= <-].
  - destruct (existsb _ l); [discriminate|].
    destruct (existsb _ l); [discriminate|].
    now intros [= <-].
  - now destruct (Hv d).
Qed.

Lemma attribute_parse_step (v : value) (self a : Attribute.t) :
  Attribute.parse v self = Ok a -> attribute_step self a.
Proof.
  destruct v as [| | | | s | l | d];
    try (intros H; apply step_none;
         refine (attribute_parse_other _ _ _ _ H); discriminate).
  rewrite attribute_parse_dict.
  destruct (Dict.get d "PrimitiveType") as [x|].
  { intros [= <-]. now apply (step_primitive _ _ (PrimitiveType x)). }
  destruct (Dict.get d "Type") as [ty|];
    [|intros [= <-]; now apply step_none].
  assert (Hitem : forall wrap,
             Attribute.parse_item wrap (VDict d) self = Ok a ->
             attribute_step self a).
  { intros wrap. rewrite attribute_parse_item_dict.
    destruct (Dict.get d "PrimitiveItemType") as [x|].
    { intros [= <-]. now eapply step_type. }
    destruct (Dict.get d "ItemType") as [y|]; intros [= <-].
    - now eapply step_type.
    - now apply step_none. }
  destruct (Py.eq_str ty "List"); [apply Hitem|].
  destruct (Py.eq_str ty "Map"); [apply Hitem|].
  intros [= <-]. now eapply step_type.
Qed.

Lemma eq_str_true (v : value) (s : string) :
  Py.eq_str v s = true <-> v = VStr s.
Proof.
  destruct v; simpl; try (split; [discriminate | intros [=]]).
  rewrite String.eqb_eq. split; [now intros -> | now intros [= ->]].
Qed.

Lemma eq_str_false (v : value) (s : string) :
  Py.eq_str v s = false <-> v <> VStr s.
Proof.
  rewrite <- eq_str_true. destruct (Py.eq_str v s); split;
    congruence.
Qed.

(** ** Property.parse on a dict *)

Lemma property_parse_other (v : value) (self : Property.t) :
  (forall d, v <> VDict d) -> Property.parse v self = Raise TypeError.
Proof.
  intros Hv. destruct v; try reflexivity. now destruct (Hv d).
Qed.

Lemma property_parse_dict (d : Dict.t value) (self : Property.t) :
  Property.parse (VDict d) self =
  match Dict.get d "Documentation" with
  | None => Raise (KeyError "Documentation")
  | Some doc =>
      match Dict.get d "Properties" with
      | Some (VDict items) =>
          Py.for_items (build_body Property.init Property.set_property)
            items (Property.set_documentation doc self)
      | Some _ => Raise AttributeError
      | None =>
          Property.parse_leaf (VDict d) (Property.set_documentation doc self)
      end
  end.
Proof.
  cbn [Property.parse Py.getitem bind].
  destruct (Dict.get d "Documentation") as [doc|]; [|reflexivity].
  cbn [bind]. rewrite find_get.
  destruct (Dict.get d "Properties") as [[]|]; reflexivity.
Qed.

Lemma property_parse_leaf_dict (d : Dict.t value) (self : Property.t) :
  Property.parse_leaf (VDict d) self =
  match Dict.get d "UpdateType" with
  | None => Raise (KeyError "UpdateType")
  | Some u =>
      if Property.valid_update_type u then
        match Dict.get d "Required" with
        | None => Raise (KeyError "Required")
        | Some r =>
            a <- Attribute.parse (VDict d) (Property.base self) ;;
            Ok (Property.mk a (Property.documentation self)
                  match Dict.get d "DuplicatesAllowed" with
                  | Some dup => dup
                  | None => Property.duplicate_allowed self
                  end
                  r u (Property.properties self))
        end
      else Raise (ValueError "Invalid update type: %s" u)
  end.
Proof.
  unfold Property.parse_leaf, Property.set_update_type, Property.super_parse.
  unfold Py.getitem, Py.contains, Dict.mem.
  destruct (Dict.get d "UpdateType") as [u|]; [|reflexivity]. cbn [bind].
  destruct (Property.valid_update_type u); [|reflexivity]. cbn [bind].
  destruct (Dict.get d "Required") as [r|]; [|reflexivity]. cbn [bind].
  destruct (Attribute.parse (VDict d) _) as [a|e]; [|reflexivity].
  cbn [bind].
  destruct (Dict.get d "DuplicatesAllowed"); reflexivity.
Qed.

(** A container property: the loop result, field by field. *)
Lemma property_container (name : string) (d items : Dict.t value)
    (p : Property.t) :
  Dict.get d "Properties" = Some (VDict items) ->
  Property.init name (VDict d) = Ok p ->
  exists doc,
    Dict.get d "Documentation" = Some doc /\
    Py.for_items (build_body Property.init Property.set_property) items
      (Property.set_documentation doc (Property.fresh name)) = Ok p /\
    Property.base p = Attribute.fresh name /\
    Property.documentation p = doc /\
    Property.leaf_fields_unset p.
Proof.
  intros Hprops. unfold Property.init. rewrite property_parse_dict, Hprops.
  destruct (Dict.get d "Documentation") as [doc|]; [|discriminate].
  intros Hrun. exists doc. split; [reflexivity|]. split; [exact Hrun|].
  pose proof (fun X (g : Property.t -> X) Hg =>
                for_items_frame Property.init Property.set_property g items
                  Hg _ _ Hrun) as Hframe.
  assert (Hbase : Property.base p = Attribute.fresh name)
    by (now apply (Hframe _ Property.base)).
  split; [exact Hbase|].
  split; [now apply (Hframe _ Property.documentation)|].
  unfold Property.leaf_fields_unset, Property.update_type,
    Property.primitive_type, Property.type.
  rewrite Hbase.
  repeat split.
  - now apply (Hframe _ Property.required).
  - now apply (Hframe _ Property._update_type).
  - now apply (Hframe _ Property.duplicate_allowed).
Qed.

(** A leaf property: what the constructor returns, or why it raises. *)
Lemma property_leaf (name : string) (d : Dict.t value) :
  Dict.get d "Properties" = None ->
  Property.init name (VDict d) =
  match Dict.get d "Documentation" with
  | None => Raise (KeyError "Documentation")
  | Some doc =>
      match Dict.get d "UpdateType" with
      | None => Raise (KeyError "UpdateType")
      | Some u =>
          if Property.valid_update_type u then
            match Dict.get d "Required" with
            | None => Raise (KeyError "Required")
            | Some r =>
                a <- Attribute.init name (VDict d) ;;
                Ok (Property.mk a doc
                      match Dict.get d "DuplicatesAllowed" with
                      | Some dup => dup
                      | None => VNone
                      end
                      r u Dict.empty)
            end
          else Raise (ValueError "Invalid update type: %s" u)
      end
  end.
Proof.
  intros Hprops. unfold Property.init.
  rewrite property_parse_dict, Hprops.
  destruct (Dict.get d "Documentation") as [doc|]; [|reflexivity].
  now rewrite property_parse_leaf_dict.
Qed.

Lemma property_init_dict (name : string) (v : value) (p : Property.t) :
  Property.init name v = Ok p -> exists d, v = VDict d.
Proof.
  destruct v; try discriminate. intros _. now eexists.
Qed.

Lemma attribute_init_name (name : string) (v : value) (a : Attribute.t) :
  Attribute.init name v = Ok a -> Attribute.name a = name.
Proof.
  intros H. apply attribute_parse_step in H.
  destruct H as [->|? ->|? ->]; reflexivity.
Qed.

Lemma property_init_name (name : string) (v : value) (p : Property.t) :
  Property.init name v = Ok p -> Property.name p = name.
Proof.
  intros H. destruct (property_init_dict _ _ _ H) as [d ->].
  destruct (Dict.get d "Properties") as [sub|] eqn:Hprops.
  - destruct sub as [| | | | | |items];
      try (unfold Property.init in H; rewrite property_parse_dict, Hprops in H;
           destruct (Dict.get d "Documentation"); discriminate).
    destruct (property_container _ _ _ _ Hprops H) as (doc & _ & _ & Hb & _).
    unfold Property.name. now rewrite Hb.
  - rewrite (property_leaf _ _ Hprops) in H.
    destruct (Dict.get d "Documentation"); [|discriminate].
    destruct (Dict.get d "UpdateType") as [u|]; [|discriminate].
    destruct (Property.valid_update_type u); [|discriminate].
    destruct (Dict.get d "Required"); [|discriminate].
    destruct (Attribute.init name (VDict d)) as [a|] eqn:Ha; [|discriminate].
    injection H as <-. unfold Property.name. simpl.
    now apply attribute_init_name in Ha.
Qed.

(** A container yields no property when its [Properties] value is not a
    dict. *)
Lemma property_container_items (name : string) (d : Dict.t value)
    (sub : value) (p : Property.t) :
  Dict.get d "Properties" = Some sub ->
  Property.init name (VDict d) = Ok p ->
  exists items, sub = VDict items.
Proof.
  intros Hprops. unfold Property.init. rewrite property_parse_dict, Hprops.
  destruct (Dict.get d "Documentation"); [|discriminate].
  destruct sub; try discriminate. intros _. now eexists.
Qed.

(** What every constructor call establishes holds throughout the tree the
    outermost call returns. *)
Lemma property_init_every (P : Property.t -> Prop) :
  (forall name v p, Property.init name v = Ok p -> P p) ->
  forall v name p, Property.init name v = Ok p -> Property.Every P p.
Proof.
  intros Hroot.
  set (R := fun v => forall name p,
                Property.init name v = Ok p -> Property.Every P p).
  enough (Hall : forall v,
             R v /\ forall items, v = VDict items ->
                                  Forall (fun kv => R (snd kv)) items)
    by (intros v; apply Hall).
  induction v as [| | | | |l IHl|d IH] using value_ind;
    try (split; [intros name p H; discriminate | intros items H; discriminate]).
  split.
  2:{ intros items [= <-]. revert IH. apply Forall_impl. now intros kv [H _]. }
  intros name p Hinit. constructor; [now apply (Hroot name (VDict d))|].
  destruct (Dict.get d "Properties") as [sub|] eqn:Hprops.
  - destruct (property_container_items _ _ _ _ Hprops Hinit) as [items ->].
    destruct (property_container _ _ _ _ Hprops Hinit)
      as (doc & _ & Hrun & _).
    assert (Hitems : Forall (fun kv => R (snd kv)) items).
    { apply get_In in Hprops. rewrite Forall_forall in IH.
      now apply (IH _ Hprops). }
    refine (for_items_origin Property.init Property.set_property
              Property.properties (fun _ _ _ => eq_refl)
              (fun _ q => Property.Every P q) items _ _ _ _ Hrun).
    + intros k x q Hin Hq. rewrite Forall_forall in Hitems.
      now apply (Hitems _ Hin k).
    + constructor.
  - rewrite (property_leaf _ _ Hprops) in Hinit.
    destruct (Dict.get d "Documentation"); [|discriminate].
    destruct (Dict.get d "UpdateType") as [u|]; [|discriminate].
    destruct (Property.valid_update_type u); [|discriminate].
    destruct (Dict.get d "Required"); [|discriminate].
    destruct (Attribute.init name (VDict d)); [|discriminate].
    injection Hinit as <-. constructor.
Qed.

Lemma property_init_consistent (name : string) (v : value) (p : Property.t) :
  Property.init name v = Ok p -> Property.consistent p.
Proof.
  intros H. destruct (property_init_dict _ _ _ H) as [d ->].
  destruct (Dict.get d "Properties") as [sub|] eqn:Hprops.
  - destruct (property_container_items _ _ _ _ Hprops H) as [items ->].
    destruct (property_container _ _ _ _ Hprops H)
      as (doc & _ & Hrun & _ & _ & Hunset).
    split; [left; apply Hunset|]. split; [|now intros _].
    refine (for_items_origin Property.init Property.set_property
              Property.properties (fun _ _ _ => eq_refl)
              (fun k q => k = Property.name q) items _ _ _ _ Hrun).
    + intros k x q _ Hq. symmetry. now apply (property_init_name _ x).
    + constructor.
  - rewrite (property_leaf _ _ Hprops) in H.
    destruct (Dict.get d "Documentation"); [|discriminate].
    destruct (Dict.get d "UpdateType") as [u|]; [|discriminate].
    destruct (Property.valid_update_type u) eqn:Hu; [|discriminate].
    destruct (Dict.get d "Required"); [|discriminate].
    destruct (Attribute.init name (VDict d)); [|discriminate].
    injection H as <-. split; [now right|].
    split; [constructor | now intros []].
Qed.

Lemma valid_update_type_iff (u : value) :
  Property.valid_update_type u = true <->
  u = VStr "Immutable" \/ u = VStr "Mutable" \/ u = VStr "Conditional".
Proof.
  unfold Property.valid_update_type. simpl.
  rewrite !orb_true_iff, !eq_str_true. intuition discriminate.
Qed.

(** The [update_type] setter on its own: it stores an accepted value as it
    is and raises on any other, reporting that value. *)
Lemma set_update_type_spec (u : value) (self : Property.t) :
  (Property.valid_update_type u = true ->
   exists self', Property.set_update_type u self = Ok self' /\
                 Property.update_type self' = u) /\
  (Property.valid_update_type u = false ->
   Property.set_update_type u self =
   Raise (ValueError "Invalid update type: %s" u)).
Proof.
  unfold Property.set_update_type. split; intros ->.
  - now eexists.
  - reflexivity.
Qed.

(** The Attribute part of a constructed property is what [Attribute.parse]
    makes of a fresh attribute. *)
Lemma property_init_base (name : string) (v : value) (p : Property.t) :
  Property.init name v = Ok p ->
  attribute_step (Attribute.fresh name) (Property.base p).
Proof.
  intros H. destruct (property_init_dict _ _ _ H) as [d ->].
  destruct (Dict.get d "Properties") as [sub|] eqn:Hprops.
  - destruct (property_container_items _ _ _ _ Hprops H) as [items ->].
    destruct (property_container _ _ _ _ Hprops H) as (doc & _ & _ & Hb & _).
    now apply step_none.
  - rewrite (property_leaf _ _ Hprops) in H.
    destruct (Dict.get d "Documentation"); [|discriminate].
    destruct (Dict.get d "UpdateType") as [u|]; [|discriminate].
    destruct (Property.valid_update_type u); [|discriminate].
    destruct (Dict.get d "Required"); [|discriminate].
    destruct (Attribute.init name (VDict d)) as [a|] eqn:Ha; [|discriminate].
    injection H as <-. simpl. now apply attribute_parse_step in Ha.
Qed.

(** ** Attribute type resolution *)

(** C1. For every definition dict, type resolution follows the fixed
    precedence: a [PrimitiveType] key sets [primitive_type] and leaves
    [type] unset whatever the [Type] key holds; otherwise [Type] equal to
    "List" gives a [ListType] of the primitive [PrimitiveItemType] when that
    key is present, else of the subproperty [ItemType] when that key is
    present; [Type] equal to "Map" does the same with [MapType]; any other
    [Type] value gives a direct subproperty reference to that value. *)
Theorem attribute_type_precedence (name : string) (d : Dict.t value) :
  (forall x,
      Dict.get d "PrimitiveType" = Some x ->
      Attribute.init name (VDict d) =
      Ok (Attribute.mk name None None (Some (PrimitiveType x)) None)) /\
  (Dict.get d "PrimitiveType" = None ->
   (Dict.get d "Type" = Some (VStr "List") ->
    (forall x,
        Dict.get d "PrimitiveItemType" = Some x ->
        Attribute.init name (VDict d) =
        Ok (Attribute.mk name None None None
              (Some (ListType (PrimitiveType x))))) /\
    (forall y,
        Dict.get d "PrimitiveItemType" = None ->
        Dict.get d "ItemType" = Some y ->
        Attribute.init name (VDict d) =
        Ok (Attribute.mk name None None None
              (Some (ListType (Subproperty y)))))) /\
   (Dict.get d "Type" = Some (VStr "Map") ->
    (forall x,
        Dict.get d "PrimitiveItemType" = Some x ->
        Attribute.init name (VDict d) =
        Ok (Attribute.mk name None None None
              (Some (MapType (PrimitiveType x))))) /\
    (forall y,
        Dict.get d "PrimitiveItemType" = None ->
        Dict.get d "ItemType" = Some y ->
        Attribute.init name (VDict d) =
        Ok (Attribute.mk name None None None
              (Some (MapType (Subproperty y)))))) /\
   (forall ty,
       Dict.get d "Type" = Some ty ->
       ty <> VStr "List" -> ty <> VStr "Map" ->
       Attribute.init name (VDict d) =
       Ok (Attribute.mk name None None None
             (Some (Direct (Subproperty ty)))))).
Proof.
  unfold Attribute.init. rewrite attribute_parse_dict. split.
  { intros x ->. reflexivity. }
  intros ->. repeat split.
  - intros x Hx. rewrite H. cbn -[Attribute.parse_item].
    rewrite attribute_parse_item_dict, Hx. reflexivity.
  - intros y Hx Hy. rewrite H. cbn -[Attribute.parse_item].
    rewrite attribute_parse_item_dict, Hx, Hy. reflexivity.
  - intros x Hx. rewrite H. cbn -[Attribute.parse_item].
    rewrite attribute_parse_item_dict, Hx. reflexivity.
  - intros y Hx Hy. rewrite H. cbn -[Attribute.parse_item].
    rewrite attribute_parse_item_dict, Hx, Hy. reflexivity.
  - intros ty -> Hlist Hmap.
    apply eq_str_false in Hlist, Hmap. now rewrite Hlist, Hmap.
Qed.

(** A definition that carries both [PrimitiveType] and [Type]: the
    primitive type wins. *)
Lemma attribute_type_precedence_witness :
  Attribute.init "Arn"
    (VDict [("Type", VStr "List"); ("PrimitiveType", VStr "String");
            ("ItemType", VStr "Tag")]) =
  Ok (Attribute.mk "Arn" None None (Some (PrimitiveType (VStr "String"))) None).
Proof.
  apply (proj1 (attribute_type_precedence "Arn" _)). reflexivity.
Defined.

Example attribute_type_is_case_sensitive :
  Attribute.init "Tags" (VDict [("Type", VStr "list"); ("ItemType", VStr "Tag")])
  = Ok (Attribute.mk "Tags" None None None
          (Some (Direct (Subproperty (VStr "list"))))).
Proof. reflexivity. Qed.

(** C6. Attribute type resolution raises for no definition dict; a List or
    Map declaration that lacks both [PrimitiveItemType] and [ItemType], and a
    definition with neither a [PrimitiveType] nor a [Type] key, leave both
    [primitive_type] and [type] unset. *)
Theorem attribute_resolution_never_raises (name : string) (d : Dict.t value) :
  (exists a, Attribute.init name (VDict d) = Ok a) /\
  (Dict.get d "PrimitiveType" = None ->
   Dict.get d "Type" = Some (VStr "List") \/
   Dict.get d "Type" = Some (VStr "Map") ->
   Dict.get d "PrimitiveItemType" = None ->
   Dict.get d "ItemType" = None ->
   Attribute.init name (VDict d) = Ok (Attribute.fresh name)) /\
  (Dict.get d "PrimitiveType" = None ->
   Dict.get d "Type" = None ->
   Attribute.init name (VDict d) = Ok (Attribute.fresh name)).
Proof.
  split; [apply attribute_parse_dict_total|].
  unfold Attribute.init. rewrite attribute_parse_dict. split.
  - intros -> [-> | ->] Hx Hy; cbn -[Attribute.parse_item];
      now rewrite attribute_parse_item_dict, Hx, Hy.
  - now intros -> ->.
Qed.

Lemma attribute_resolution_never_raises_witness :
  Attribute.init "Ids" (VDict [("Type", VStr "List")]) =
  Ok (Attribute.fresh "Ids").
Proof.
  apply (proj1 (proj2 (attribute_resolution_never_raises "Ids" _)));
    (reflexivity || (left; reflexivity)).
Defined.

(** C8. Every successfully constructed Attribute, and every Property down
    to the nested ones, has at most one of [primitive_type] and [type] set;
    a definition that supplies neither a [PrimitiveType] nor a [Type] key
    leaves both unset. *)
Theorem at_most_one_resolved_type :
  (forall name v a,
      Attribute.init name v = Ok a -> Attribute.at_most_one_type a) /\
  (forall name v p,
      Property.init name v = Ok p ->
      Property.Every
        (fun q => Attribute.at_most_one_type (Property.base q)) p) /\
  (forall name d a,
      Dict.get d "PrimitiveType" = None -> Dict.get d "Type" = None ->
      Attribute.init name (VDict d) = Ok a ->
      Attribute.primitive_type a = None /\ Attribute.type a = None) /\
  (forall name d p,
      Dict.get d "PrimitiveType" = None -> Dict.get d "Type" = None ->
      Property.init name (VDict d) = Ok p ->
      Property.primitive_type p = None /\ Property.type p = None).
Proof.
  assert (Hstep : forall name a,
             attribute_step (Attribute.fresh name) a ->
             Attribute.at_most_one_type a).
  { intros name a [->|? ->|? ->]; [left | right | left]; reflexivity. }
  assert (Hattr : forall name d a,
             Dict.get d "PrimitiveType" = None -> Dict.get d "Type" = None ->
             Attribute.init name (VDict d) = Ok a ->
             Attribute.primitive_type a = None /\ Attribute.type a = None).
  { intros name d a Hp Ht. unfold Attribute.init.
    rewrite attribute_parse_dict, Hp, Ht. now intros [= <-]. }
  assert (Hprop : forall name d p,
             Dict.get d "PrimitiveType" = None -> Dict.get d "Type" = None ->
             Property.init name (VDict d) = Ok p ->
             Property.primitive_type p = None /\ Property.type p = None).
  { intros name d p Hp Ht H.
    destruct (Dict.get d "Properties") as [sub|] eqn:Hprops.
    - destruct (property_container_items _ _ _ _ Hprops H) as [items ->].
      destruct (property_container _ _ _ _ Hprops H)
        as (_ & _ & _ & _ & _ & Hunset). apply Hunset.
    - rewrite (property_leaf _ _ Hprops) in H.
      destruct (Dict.get d "Documentation"); [|discriminate].
      destruct (Dict.get d "UpdateType") as [u|]; [|discriminate].
      destruct (Property.valid_update_type u); [|discriminate].
      destruct (Dict.get d "Required"); [|discriminate].
      destruct (Attribute.init name (VDict d)) as [a|] eqn:Ha; [|discriminate].
      injection H as <-. now apply (Hattr name d a). }
  split; [|split; [|split; assumption]].
  - intros name v a H. apply (Hstep name).
    now apply (attribute_parse_step v).
  - intros name v p H. revert v name p H. apply property_init_every.
    intros name v p H. apply (Hstep name).
    now apply (property_init_base name v).
Qed.

Lemma at_most_one_resolved_type_witness :
  Attribute.at_most_one_type
    (Attribute.mk "Arn" None None (Some (PrimitiveType (VStr "String"))) None).
Proof.
  apply (proj1 at_most_one_resolved_type "Arn"
           (VDict [("PrimitiveType", VStr "String"); ("Type", VStr "List")])).
  reflexivity.
Defined.

(** C10. In every successfully constructed Attribute and Property the
    fields [item_type] and [primitive_item_type] are unset: no branch of
    [parse] assigns them, and the item type of a List or Map is found only
    inside the [ListType] or [MapType] stored in [type]. *)
Theorem item_fields_never_assigned :
  (forall name v a,
      Attribute.init name v = Ok a -> Attribute.item_fields_unset a) /\
  (forall name v p,
      Property.init name v = Ok p ->
      Property.Every
        (fun q => Attribute.item_fields_unset (Property.base q)) p) /\
  (forall name d wrap x a,
      Dict.get d "PrimitiveType" = None ->
      (Dict.get d "Type" = Some (VStr "List") /\ wrap = ListType) \/
      (Dict.get d "Type" = Some (VStr "Map") /\ wrap = MapType) ->
      Dict.get d "PrimitiveItemType" = Some x ->
      Attribute.init name (VDict d) = Ok a ->
      Attribute.type a = Some (wrap (PrimitiveItem (PrimitiveType x))) /\
      Attribute.primitive_item_type a = None).
Proof.
  assert (Hstep : forall name a,
             attribute_step (Attribute.fresh name) a ->
             Attribute.item_fields_unset a).
  { intros name a [->|? ->|? ->]; split; reflexivity. }
  split; [|split].
  - intros name v a H. apply (Hstep name).
    now apply (attribute_parse_step v).
  - intros name v p H. revert v name p H. apply property_init_every.
    intros name v p H. apply (Hstep name).
    now apply (property_init_base name v).
  - intros name d wrap x a Hp Hty Hx H. split.
    + unfold Attribute.init in H. rewrite attribute_parse_dict, Hp in H.
      destruct Hty as [[Ht ->]|[Ht ->]]; rewrite Ht in H;
        cbn -[Attribute.parse_item] in H;
        rewrite attribute_parse_item_dict, Hx in H;
        now injection H as <-.
    + apply (Hstep name). now apply (attribute_parse_step (VDict d)).
Qed.

Lemma item_fields_never_assigned_witness :
  Attribute.item_fields_unset
    (Attribute.mk "Tags" None None None
       (Some (ListType (PrimitiveType (VStr "String"))))).
Proof.
  apply (proj1 item_fields_never_assigned "Tags"
           (VDict [("Type", VStr "List");
                   ("PrimitiveItemType", VStr "String")])).
  reflexivity.
Defined.

(** ** Properties: containers and leaves *)

(** C2. A property definition with a [Properties] sub-map yields a Property
    whose [properties] holds one entry per key of the sub-map, each the
    Property built from that entry under the same name, and whose
    [required], [update_type], [duplicate_allowed], [primitive_type] and
    [type] are unset, whatever other keys stand next to [Properties]. *)
Theorem container_property_fields (name : string) (d items : Dict.t value)
    (p : Property.t) :
  Dict.get d "Properties" = Some (VDict items) ->
  Dict.wf items ->
  Property.init name (VDict d) = Ok p ->
  built_from Property.init items (Property.properties p) /\
  Dict.keys (Property.properties p) = Dict.keys items /\
  length (Property.properties p) = length items /\
  Property.leaf_fields_unset p.
Proof.
  intros Hprops Hwf Hinit.
  destruct (property_container _ _ _ _ Hprops Hinit)
    as (doc & _ & Hrun & _ & _ & Hunset).
  destruct (for_items_view Property.init Property.set_property
              Property.properties (fun _ _ _ => eq_refl) items
              (Property.set_documentation doc (Property.fresh name)) p Hwf
              (fun _ _ => eq_refl) Hrun) as [out [Hout Hbuilt]].
  simpl in Hout. rewrite Hout.
  split; [exact Hbuilt|]. split; [now apply built_from_keys in Hbuilt|].
  split; [now apply built_from_length in Hbuilt | exact Hunset].
Qed.

Lemma container_property_fields_witness :
  exists p,
    Property.init "Config" (VDict sample_container) = Ok p /\
    built_from Property.init sample_subproperties (Property.properties p) /\
    Dict.keys (Property.properties p) = Dict.keys sample_subproperties /\
    length (Property.properties p) = length sample_subproperties /\
    Property.leaf_fields_unset p.
Proof.
  eexists. split; [reflexivity|].
  apply (container_property_fields "Config" sample_container
           sample_subproperties).
  - reflexivity.
  - repeat constructor. simpl. tauto.
  - reflexivity.
Defined.

(** C5. For a property definition without [Properties] that carries
    [Documentation] and a valid [UpdateType], construction succeeds as soon
    as [Required] is present, and the constructed Property has [required]
    equal to the definition's [Required] value, [documentation] equal to its
    [Documentation] value, [primitive_type] and [type] as the Attribute
    resolver sets them, and [duplicate_allowed] equal to the
    [DuplicatesAllowed] value when that key is present and unset (which is
    not [False]) when it is not. *)
Theorem leaf_property_fields (name : string) (d : Dict.t value)
    (doc u : value) :
  Dict.get d "Properties" = None ->
  Dict.get d "Documentation" = Some doc ->
  Dict.get d "UpdateType" = Some u ->
  Property.valid_update_type u = true ->
  (forall r, Dict.get d "Required" = Some r ->
             exists p, Property.init name (VDict d) = Ok p) /\
  (forall p,
      Property.init name (VDict d) = Ok p ->
      exists a,
        Attribute.init name (VDict d) = Ok a /\
        Dict.get d "Required" = Some (Property.required p) /\
        Property.documentation p = doc /\
        Property.update_type p = u /\
        Property.primitive_type p = Attribute.primitive_type a /\
        Property.type p = Attribute.type a /\
        (forall dup, Dict.get d "DuplicatesAllowed" = Some dup ->
                     Property.duplicate_allowed p = dup) /\
        (Dict.get d "DuplicatesAllowed" = None ->
         Property.duplicate_allowed p = VNone /\
         Property.duplicate_allowed p <> VBool false) /\
        Property.properties p = []).
Proof.
  intros Hprops Hdoc Hu Hvalid.
  destruct (attribute_parse_dict_total d (Attribute.fresh name)) as [a Ha].
  rewrite (property_leaf _ _ Hprops), Hdoc, Hu, Hvalid.
  fold (Attribute.init name (VDict d)) in Ha. rewrite Ha. cbn [bind].
  split.
  - intros r ->. now eexists.
  - intros p. destruct (Dict.get d "Required") as [r|]; [|discriminate].
    intros [= <-]. exists a. cbn.
    do 6 (split; [reflexivity|]).
    split; [now intros dup ->|]. split; [|reflexivity].
    intros ->. split; [reflexivity | discriminate].
Qed.

Lemma leaf_property_fields_witness :
  exists p a,
    Property.init "Names" (VDict sample_leaf) = Ok p /\
    Attribute.init "Names" (VDict sample_leaf) = Ok a /\
    Property.required p = VBool true /\
    Property.update_type p = VStr "Mutable" /\
    Property.type p = Some (ListType (PrimitiveType (VStr "String"))) /\
    Property.duplicate_allowed p = VNone.
Proof.
  destruct (leaf_property_fields "Names" sample_leaf (VStr "d")
              (VStr "Mutable") eq_refl eq_refl eq_refl eq_refl)
    as [Hok Hfields].
  destruct (Hok (VBool true) eq_refl) as [p Hp].
  destruct (Hfields p Hp)
    as (a & Ha & Hr & _ & Hu & _ & Ht & _ & Hdup & _).
  exists p, a. split; [exact Hp|]. split; [exact Ha|].
  split; [now injection Hr|]. split; [exact Hu|].
  split; [|now apply Hdup].
  rewrite Ht. now injection Ha as <-.
Defined.

Example leaf_property_scenario :
  Property.init "Names" (VDict sample_leaf) =
  Ok (Property.mk
        (Attribute.mk "Names" None None None
           (Some (ListType (PrimitiveType (VStr "String")))))
        (VStr "d") VNone (VBool true) (VStr "Mutable") []).
Proof. reflexivity. Qed.

(** ** Resource.parse on a dict *)

Lemma resource_init_dict (name : string) (d : Dict.t value) :
  Resource.init name (VDict d) =
  match Dict.get d "Documentation" with
  | None => Raise (KeyError "Documentation")
  | Some doc =>
      match Dict.get d "Attributes" with
      | None => Raise (KeyError "Attributes")
      | Some (VDict attrs) =>
          s <- Resource.parse_attributes attrs
                 (Resource.set_documentation doc (Resource.fresh name)) ;;
          match Dict.get d "Properties" with
          | None => Raise (KeyError "Properties")
          | Some (VDict props) => Resource.parse_properties props s
          | Some _ => Raise AttributeError
          end
      | Some _ => Raise AttributeError
      end
  end.
Proof.
  unfold Resource.init, Resource.parse, Py.getitem, Py.items.
  destruct (Dict.get d "Documentation") as [doc|]; [|reflexivity]. cbn [bind].
  destruct (Dict.get d "Attributes") as [[]|]; try reflexivity. cbn [bind].
  destruct (Resource.parse_attributes _ _) as [s|e]; [|reflexivity].
  cbn [bind].
  destruct (Dict.get d "Properties") as [[]|]; reflexivity.
Qed.

Lemma resource_init_ok (name : string) (d : Dict.t value) (r : Resource.t) :
  Resource.init name (VDict d) = Ok r ->
  exists doc attrs props s,
    Dict.get d "Documentation" = Some doc /\
    Dict.get d "Attributes" = Some (VDict attrs) /\
    Dict.get d "Properties" = Some (VDict props) /\
    Resource.parse_attributes attrs
      (Resource.set_documentation doc (Resource.fresh name)) = Ok s /\
    Resource.parse_properties props s = Ok r.
Proof.
  rewrite resource_init_dict.
  destruct (Dict.get d "Documentation") as [doc|]; [|discriminate].
  destruct (Dict.get d "Attributes") as [[| | | | | |attrs]|];
    try discriminate.
  destruct (Resource.parse_attributes _ _) as [s|e] eqn:Hs;
    [|discriminate]. cbn [bind].
  destruct (Dict.get d "Properties") as [[| | | | | |props]|];
    try discriminate.
  intros Hr. now exists doc, attrs, props, s.
Qed.

(** ** Update type validation *)

(** C3, the claim as stated fails: a valid [UpdateType] does not make
    construction succeed when [Required] is missing, and an invalid one is
    not what the error reports when [Documentation] is missing. *)
Lemma valid_update_type_yet_no_property :
  Property.valid_update_type (VStr "Mutable") = true /\
  Property.init "Names"
    (VDict [("Documentation", VStr "d"); ("UpdateType", VStr "Mutable")]) =
  Raise (KeyError "Required") /\
  Property.valid_update_type (VStr "Foo") = false /\
  Property.init "Names"
    (VDict [("UpdateType", VStr "Foo"); ("Required", VBool true)]) =
  Raise (KeyError "Documentation").
Proof. repeat split. Qed.

(** C3, amended. For a property definition without [Properties] that
    carries [Documentation], an [UpdateType] outside Immutable, Mutable and
    Conditional makes construction raise a [ValueError] that holds the
    offending value, and no Property is returned; when the definition also
    carries [Required], each of the three values makes construction succeed
    and [update_type] returns the value unchanged. *)
Theorem update_type_validation (name : string) (d : Dict.t value)
    (doc u : value) :
  Dict.get d "Properties" = None ->
  Dict.get d "Documentation" = Some doc ->
  Dict.get d "UpdateType" = Some u ->
  (Property.valid_update_type u = true <->
   u = VStr "Immutable" \/ u = VStr "Mutable" \/ u = VStr "Conditional") /\
  (Property.valid_update_type u = false ->
   Property.init name (VDict d) =
   Raise (ValueError "Invalid update type: %s" u)) /\
  (Property.valid_update_type u = true ->
   forall r, Dict.get d "Required" = Some r ->
   exists p, Property.init name (VDict d) = Ok p /\
             Property.update_type p = u).
Proof.
  intros Hprops Hdoc Hu. split; [apply valid_update_type_iff|].
  rewrite (property_leaf _ _ Hprops), Hdoc, Hu. split.
  - now intros ->.
  - intros -> r ->.
    destruct (attribute_parse_dict_total d (Attribute.fresh name)) as [a Ha].
    unfold Attribute.init. rewrite Ha. cbn [bind]. now eexists.
Qed.

Lemma update_type_validation_witness :
  exists p, Property.init "Names" (VDict sample_leaf) = Ok p /\
            Property.update_type p = VStr "Mutable".
Proof.
  apply (proj2 (proj2 (update_type_validation "Names" sample_leaf (VStr "d")
                         (VStr "Mutable") eq_refl eq_refl eq_refl))
           eq_refl (VBool true) eq_refl).
Defined.

Example update_type_foo_raises :
  Property.init "Names"
    (VDict [("Documentation", VStr "d"); ("UpdateType", VStr "Foo");
            ("Required", VBool true)]) =
  Raise (ValueError "Invalid update type: %s" (VStr "Foo")).
Proof. reflexivity. Qed.

(** ** Mandatory keys *)

(** C4, the claim as stated fails: a definition with every mandatory key
    present is still rejected when its [UpdateType] is not accepted. *)
Lemma mandatory_keys_present_yet_fails :
  let d := [("Documentation", VStr "d"); ("UpdateType", VStr "Foo");
            ("Required", VBool true)] in
  Dict.get d "Properties" = None /\
  Dict.get d "Documentation" = Some (VStr "d") /\
  Dict.get d "UpdateType" = Some (VStr "Foo") /\
  Dict.get d "Required" = Some (VBool true) /\
  succeeds (Property.init "Names" (VDict d)) = false.
Proof. repeat split. Qed.

(** C4, amended. Construction fails whenever a mandatory key is absent:
    [Documentation] from any property definition, [UpdateType] or
    [Required] from a property definition without [Properties], and
    [Documentation], [Attributes] or [Properties] from a resource
    definition.  The absence of a key is not the only cause of failure: a
    property definition without [Properties] is built exactly when it has
    [Documentation], [Required] and an [UpdateType] among the three
    accepted values. *)
Theorem missing_mandatory_key_fails :
  (forall name d,
      Dict.get d "Documentation" = None ->
      Property.init name (VDict d) = Raise (KeyError "Documentation")) /\
  (forall name d,
      Dict.get d "Properties" = None ->
      Dict.get d "UpdateType" = None \/ Dict.get d "Required" = None ->
      succeeds (Property.init name (VDict d)) = false) /\
  (forall name d,
      Dict.get d "Documentation" = None \/
      Dict.get d "Attributes" = None \/
      Dict.get d "Properties" = None ->
      succeeds (Resource.init name (VDict d)) = false) /\
  (forall name d,
      Dict.get d "Properties" = None ->
      succeeds (Property.init name (VDict d)) = true <->
      (exists doc, Dict.get d "Documentation" = Some doc) /\
      (exists u, Dict.get d "UpdateType" = Some u /\
                 Property.valid_update_type u = true) /\
      (exists r, Dict.get d "Required" = Some r)).
Proof.
  split; [|split; [|split]].
  - intros name d Hdoc. unfold Property.init.
    now rewrite property_parse_dict, Hdoc.
  - intros name d Hprops Hmissing. rewrite (property_leaf _ _ Hprops).
    destruct (Dict.get d "Documentation"); [|reflexivity].
    destruct (Dict.get d "UpdateType") as [u|]; [|reflexivity].
    destruct (Property.valid_update_type u); [|reflexivity].
    destruct Hmissing as [Hu|Hr]; [discriminate|]. now rewrite Hr.
  - intros name d Hmissing.
    destruct (Resource.init name (VDict d)) as [r|e] eqn:Hinit;
      [|reflexivity].
    destruct (resource_init_ok _ _ _ Hinit)
      as (doc & attrs & props & s & Hdoc & Hattrs & Hprops & _).
    destruct Hmissing as [H|[H|H]]; congruence.
  - intros name d Hprops. rewrite (property_leaf _ _ Hprops).
    destruct (attribute_parse_dict_total d (Attribute.fresh name)) as [a Ha].
    fold (Attribute.init name (VDict d)) in Ha. rewrite Ha.
    destruct (Dict.get d "Documentation") as [doc|].
    2:{ split; [discriminate | now intros [[doc [=]] _]]. }
    destruct (Dict.get d "UpdateType") as [u|].
    2:{ split; [discriminate | now intros (_ & [u [[=] _]] & _)]. }
    destruct (Property.valid_update_type u) eqn:Hu.
    2:{ split; [discriminate|]. intros (_ & [u' [[= <-] Hu']] & _).
        congruence. }
    destruct (Dict.get d "Required") as [r|].
    2:{ split; [discriminate | now intros (_ & _ & [r [=]])]. }
    split; [|reflexivity]. intros _.
    split; [now exists doc|]. split; [now exists u | now exists r].
Qed.

Lemma missing_mandatory_key_fails_witness :
  Property.init "Names" (VDict [("UpdateType", VStr "Mutable")]) =
  Raise (KeyError "Documentation").
Proof.
  apply (proj1 missing_mandatory_key_fails). reflexivity.
Defined.

(** ** Resources *)

(** C7. A resource definition whose [Attributes] mapping has N entries and
    whose [Properties] mapping has M entries, when its build succeeds, yields
    a Resource with exactly N attributes and M properties, stored under the
    names of the input mappings. *)
Theorem resource_entries (name : string) (d attrs props : Dict.t value)
    (r : Resource.t) :
  Dict.get d "Attributes" = Some (VDict attrs) ->
  Dict.get d "Properties" = Some (VDict props) ->
  Dict.wf attrs -> Dict.wf props ->
  Resource.init name (VDict d) = Ok r ->
  length (Resource.attributes r) = length attrs /\
  length (Resource.properties r) = length props /\
  Dict.keys (Resource.attributes r) = Dict.keys attrs /\
  Dict.keys (Resource.properties r) = Dict.keys props /\
  built_from Attribute.init attrs (Resource.attributes r) /\
  built_from Property.init props (Resource.properties r).
Proof.
  intros Hattrs Hprops Hwfa Hwfp Hinit.
  destruct (resource_init_ok _ _ _ Hinit)
    as (doc & attrs' & props' & s & _ & Ha & Hp & Hs & Hr).
  rewrite Hattrs in Ha. rewrite Hprops in Hp.
  injection Ha as <-. injection Hp as <-.
  set (s0 := Resource.set_documentation doc (Resource.fresh name)) in Hs.
  destruct (for_items_view Attribute.init Resource.set_attribute
              Resource.attributes (fun _ _ _ => eq_refl) attrs s0 s Hwfa
              (fun _ _ => eq_refl) Hs) as [outa [Houta Hbuilta]].
  assert (Hsp : Resource.properties s = [])
    by (apply (for_items_frame Attribute.init Resource.set_attribute
                 Resource.properties attrs (fun _ _ _ => eq_refl) s0 s Hs)).
  assert (Hnew : forall k, In k (Dict.keys props) ->
                           Dict.get (Resource.properties s) k = None)
    by (intros k _; now rewrite Hsp).
  destruct (for_items_view Property.init Resource.set_property
              Resource.properties (fun _ _ _ => eq_refl) props s r Hwfp
              Hnew Hr) as [outp [Houtp Hbuiltp]].
  assert (Hra : Resource.attributes r = Resource.attributes s)
    by (apply (for_items_frame Property.init Resource.set_property
                 Resource.attributes props (fun _ _ _ => eq_refl) s r Hr)).
  rewrite Hsp in Houtp. simpl in Houta, Houtp.
  rewrite Hra, Houta, Houtp.
  split; [now apply built_from_length in Hbuilta|].
  split; [now apply built_from_length in Hbuiltp|].
  split; [now apply built_from_keys in Hbuilta|].
  split; [now apply built_from_keys in Hbuiltp|].
  split; assumption.
Qed.

Lemma resource_entries_witness :
  exists r,
    Resource.init "Bucket" (VDict sample_resource) = Ok r /\
    length (Resource.attributes r) = length sample_attributes /\
    length (Resource.properties r) = length sample_properties /\
    Dict.keys (Resource.attributes r) = Dict.keys sample_attributes /\
    Dict.keys (Resource.properties r) = Dict.keys sample_properties /\
    built_from Attribute.init sample_attributes (Resource.attributes r) /\
    built_from Property.init sample_properties (Resource.properties r).
Proof.
  eexists. split; [reflexivity|].
  apply (resource_entries "Bucket" sample_resource sample_attributes
           sample_properties).
  - reflexivity.
  - reflexivity.
  - repeat constructor; simpl; intuition discriminate.
  - repeat constructor; simpl; intuition discriminate.
  - reflexivity.
Defined.

(** ** Failures *)

(** C9. A failed construction returns no entity: a missing required field
    or an invalid [UpdateType] makes the constructor raise, the failure of a
    nested property or of an attribute makes the enclosing Property or
    Resource constructor raise as well, and whatever a constructor does
    return is complete: every property of the returned tree has an update
    type that is unset or valid, stores its nested properties under their
    own names, and keeps the leaf fields unset when it has nested
    properties. *)
Theorem failure_propagates :
  (forall name v,
      (exists e, Property.init name v = Raise e) \/
      (exists p, Property.init name v = Ok p /\
                 Property.Every Property.consistent p)) /\
  (forall name d,
      Dict.get d "Documentation" = None \/
      (Dict.get d "Properties" = None /\
       (Dict.get d "UpdateType" = None \/
        Dict.get d "Required" = None \/
        exists u, Dict.get d "UpdateType" = Some u /\
                  Property.valid_update_type u = false)) ->
      exists e, Property.init name (VDict d) = Raise e) /\
  (forall name d items k x e,
      Dict.get d "Properties" = Some (VDict items) ->
      In (k, x) items -> Property.init k x = Raise e ->
      exists e', Property.init name (VDict d) = Raise e') /\
  (forall name d attrs k x e,
      Dict.get d "Attributes" = Some (VDict attrs) ->
      In (k, x) attrs -> Attribute.init k x = Raise e ->
      exists e', Resource.init name (VDict d) = Raise e') /\
  (forall name d props k x e,
      Dict.get d "Properties" = Some (VDict props) ->
      In (k, x) props -> Property.init k x = Raise e ->
      exists e', Resource.init name (VDict d) = Raise e') /\
  (forall name d r,
      Resource.init name (VDict d) = Ok r ->
      Forall (fun kp => Property.Every Property.consistent (snd kp))
             (Resource.properties r)).
Proof.
  assert (Hevery : forall v name p,
             Property.init name v = Ok p ->
             Property.Every Property.consistent p)
    by (apply property_init_every; exact property_init_consistent).
  split; [|split; [|split; [|split; [|split]]]].
  - intros name v. destruct (Property.init name v) as [p|e] eqn:Hinit.
    + right. exists p. split; [reflexivity | now apply (Hevery v name)].
    + left. now exists e.
  - intros name d [Hdoc|[Hprops Hleaf]].
    + unfold Property.init. rewrite property_parse_dict, Hdoc. now eexists.
    + rewrite (property_leaf _ _ Hprops).
      destruct (Dict.get d "Documentation"); [|now eexists].
      destruct Hleaf as [Hu|[Hr|[u [Hu Hinvalid]]]].
      * rewrite Hu. now eexists.
      * destruct (Dict.get d "UpdateType") as [u|]; [|now eexists].
        destruct (Property.valid_update_type u); [|now eexists].
        rewrite Hr. now eexists.
      * rewrite Hu, Hinvalid. now eexists.
  - intros name d items k x e Hprops Hin Hx. unfold Property.init.
    rewrite property_parse_dict, Hprops.
    destruct (Dict.get d "Documentation"); [|now eexists].
    now apply (for_items_raise Property.init Property.set_property
                 items k x e).
  - intros name d attrs k x e Hattrs Hin Hx.
    rewrite resource_init_dict, Hattrs.
    destruct (Dict.get d "Documentation") as [doc|]; [|now eexists].
    destruct (for_items_raise Attribute.init Resource.set_attribute
                attrs k x e Hin Hx
                (Resource.set_documentation doc (Resource.fresh name)))
      as [e' He'].
    unfold Resource.parse_attributes. change (Py.for_items _ attrs _)
      with (Py.for_items (build_body Attribute.init Resource.set_attribute)
              attrs (Resource.set_documentation doc (Resource.fresh name))).
    rewrite He'. now eexists.
  - intros name d props k x e Hprops Hin Hx.
    rewrite resource_init_dict, Hprops.
    destruct (Dict.get d "Documentation") as [doc|]; [|now eexists].
    destruct (Dict.get d "Attributes") as [[| | | | | |attrs]|];
      try (now eexists).
    destruct (Resource.parse_attributes _ _) as [s|e0]; [|now eexists].
    cbn [bind].
    now apply (for_items_raise Property.init Resource.set_property
                 props k x e).
  - intros name d r Hinit.
    destruct (resource_init_ok _ _ _ Hinit)
      as (doc & attrs & props & s & _ & _ & _ & Hs & Hr).
    refine (for_items_origin Property.init Resource.set_property
              Resource.properties (fun _ _ _ => eq_refl)
              (fun _ q => Property.Every Property.consistent q) props _ s r
              _ Hr).
    + intros k x q _ Hq. now apply (Hevery x k).
    + rewrite (for_items_frame Attribute.init Resource.set_attribute
                 Resource.properties attrs (fun _ _ _ => eq_refl) _ s Hs).
      constructor.
Qed.

(** A nested property with an invalid update type takes the enclosing
    property down with it. *)
Lemma failure_propagates_witness :
  exists e',
    Property.init "Config"
      (VDict [("Documentation", VStr "d");
              ("Properties",
               VDict [("Size",
                       VDict [("Documentation", VStr "s");
                              ("UpdateType", VStr "Foo");
                              ("Required", VBool true)])])]) = Raise e'.
Proof.
  apply (proj1 (proj2 (proj2 failure_propagates)) "Config" _
           [("Size",
             VDict [("Documentation", VStr "s"); ("UpdateType", VStr "Foo");
                    ("Required", VBool true)])]
           "Size"
           (VDict [("Documentation", VStr "s"); ("UpdateType", VStr "Foo");
                   ("Required", VBool true)])
           (ValueError "Invalid update type: %s" (VStr "Foo"))).
  - reflexivity.
  - left. reflexivity.
  - reflexivity.
Defined.

(** * Further properties of the parser *)

(** ** More on the loops *)

Section BuildLoopOutcome.

Context {A B S : Type}.
Variable build : string -> A -> result B.
Variable store : string -> B -> S -> S.

(** The loop returns exactly when every item builds. *)
Lemma for_items_succeeds (items : Dict.t A) :
  forall s,
    succeeds (Py.for_items (build_body build store) items s) = true <->
    Forall (fun kx => succeeds (build (fst kx) (snd kx)) = true) items.
Proof.
  induction items as [|[k x] rest IH]; intros s; simpl.
  - split; [constructor | reflexivity].
  - unfold build_body at 1. rewrite Forall_cons_iff. simpl.
    destruct (build k x) as [b|e]; simpl.
    + rewrite IH. tauto.
    + split; [discriminate | now intros [H _]].
Qed.


(** Looking a key up in what the loop built. *)
Lemma built_from_get (items : Dict.t A) (out : Dict.t B) (k : string) :
  built_from build items out ->
  match Dict.get items k with
  | Some x => exists b, Dict.get out k = Some b /\ build k x = Ok b
  | None => Dict.get out k = None
  end.
Proof.
  induction 1 as [|[k1 x1] [k2 b2] items out [Hk Hb] _ IH]; simpl;
    [reflexivity|].
  simpl in Hk, Hb. subst k2.
  destruct (String.eqb_spec k1 k) as [<-|Hne]; [|exact IH].
  now exists b2.
Qed.

End BuildLoopOutcome.

(** ** What a successful build stored *)

Lemma property_container_built (name : string) (d items : Dict.t value)
    (p : Property.t) :
  Dict.get d "Properties" = Some (VDict items) ->
  Dict.wf items ->
  Property.init name (VDict d) = Ok p ->
  built_from Property.init items (Property.properties p).
Proof.
  intros Hprops Hwf Hinit.
  destruct (property_container _ _ _ _ Hprops Hinit)
    as (doc & _ & Hrun & _).
  destruct (for_items_view Property.init Property.set_property
              Property.properties (fun _ _ _ => eq_refl) items
              (Property.set_documentation doc (Property.fresh name)) p Hwf
              (fun _ _ => eq_refl) Hrun) as [out [Hout Hbuilt]].
  simpl in Hout. now rewrite Hout.
Qed.

(** The state between the two loops of [Resource.parse] and after them. *)
Lemma resource_init_frames (name : string) (d : Dict.t value)
    (r : Resource.t) :
  Resource.init name (VDict d) = Ok r ->
  exists doc attrs props s,
    Dict.get d "Documentation" = Some doc /\
    Dict.get d "Attributes" = Some (VDict attrs) /\
    Dict.get d "Properties" = Some (VDict props) /\
    Py.for_items (build_body Attribute.init Resource.set_attribute) attrs
      (Resource.set_documentation doc (Resource.fresh name)) = Ok s /\
    Py.for_items (build_body Property.init Resource.set_property) props s
    = Ok r /\
    Resource.properties s = [] /\
    Resource.attributes r = Resource.attributes s /\
    Resource.name r = name /\
    Resource.documentation r = doc.
Proof.
  intros Hinit.
  destruct (resource_init_ok _ _ _ Hinit)
    as (doc & attrs & props & s & Hdoc & Ha & Hp & Hs & Hr).
  exists doc, attrs, props, s.
  pose proof (fun X (g : Resource.t -> X) Hg =>
                for_items_frame Attribute.init Resource.set_attribute g attrs
                  Hg _ _ Hs) as Hframe1.
  pose proof (fun X (g : Resource.t -> X) Hg =>
                for_items_frame Property.init Resource.set_property g props
                  Hg _ _ Hr) as Hframe2.
  repeat (split; [assumption|]).
  split; [now apply (Hframe1 _ Resource.properties)|].
  split; [now apply (Hframe2 _ Resource.attributes)|].
  split.
  - rewrite (Hframe2 _ Resource.name), (Hframe1 _ Resource.name);
      reflexivity.
  - rewrite (Hframe2 _ Resource.documentation),
      (Hframe1 _ Resource.documentation); reflexivity.
Qed.

Lemma resource_init_built (name : string) (d attrs props : Dict.t value)
    (r : Resource.t) :
  Dict.get d "Attributes" = Some (VDict attrs) ->
  Dict.get d "Properties" = Some (VDict props) ->
  Dict.wf attrs -> Dict.wf props ->
  Resource.init name (VDict d) = Ok r ->
  built_from Attribute.init attrs (Resource.attributes r) /\
  built_from Property.init props (Resource.properties r).
Proof.
  intros Hattrs Hprops Hwfa Hwfp Hinit.
  destruct (resource_init_frames _ _ _ Hinit)
    as (doc & attrs' & props' & s & _ & Ha & Hp & Hs & Hr & Hsp & Hra & _).
  rewrite Hattrs in Ha. rewrite Hprops in Hp.
  injection Ha as <-. injection Hp as <-.
  destruct (for_items_view Attribute.init Resource.set_attribute
              Resource.attributes (fun _ _ _ => eq_refl) attrs
              (Resource.set_documentation doc (Resource.fresh name)) s Hwfa
              (fun _ _ => eq_refl) Hs) as [outa [Houta Hbuilta]].
  assert (Hnew : forall k, In k (Dict.keys props) ->
                           Dict.get (Resource.properties s) k = None)
    by (intros k _; now rewrite Hsp).
  destruct (for_items_view Property.init Resource.set_property
              Resource.properties (fun _ _ _ => eq_refl) props s r Hwfp
              Hnew Hr) as [outp [Houtp Hbuiltp]].
  rewrite Hsp in Houtp. simpl in Houta, Houtp.
  rewrite Hra, Houta, Houtp. now split.
Qed.

(** ** Names and documentation *)

(** X1. Every constructed Attribute, Property and Resource carries the name
    it was constructed with, and a Resource stores each attribute and each
    property under that entry's own name. *)
Theorem constructed_names :
  (forall name v a, Attribute.init name v = Ok a -> Attribute.name a = name) /\
  (forall name v p, Property.init name v = Ok p -> Property.name p = name) /\
  (forall name d r,
      Resource.init name (VDict d) = Ok r ->
      Resource.name r = name /\
      Forall (fun ka => Attribute.name (snd ka) = fst ka)
             (Resource.attributes r) /\
      Forall (fun kp => Property.name (snd kp) = fst kp)
             (Resource.properties r)).
Proof.
  split; [exact attribute_init_name|]. split; [exact property_init_name|].
  intros name d r Hinit.
  destruct (resource_init_frames _ _ _ Hinit)
    as (doc & attrs & props & s & _ & _ & _ & Hs & Hr & Hsp & Hra & Hn & _).
  split; [exact Hn|]. split.
  - rewrite Hra.
    refine (for_items_origin Attribute.init Resource.set_attribute
              Resource.attributes (fun _ _ _ => eq_refl)
              (fun k a => Attribute.name a = k) attrs _ _ s _ Hs).
    + intros k x a _ Ha. now apply (attribute_init_name k x).
    + constructor.
  - refine (for_items_origin Property.init Resource.set_property
              Resource.properties (fun _ _ _ => eq_refl)
              (fun k p => Property.name p = k) props _ s r _ Hr).
    + intros k x p _ Hp. now apply (property_init_name k x).
    + rewrite Hsp. constructor.
Qed.

Lemma constructed_names_witness :
  exists r,
    Resource.init "Bucket" (VDict sample_resource) = Ok r /\
    Resource.name r = "Bucket" /\
    Forall (fun ka => Attribute.name (snd ka) = fst ka)
           (Resource.attributes r) /\
    Forall (fun kp => Property.name (snd kp) = fst kp)
           (Resource.properties r).
Proof.
  eexists. split; [reflexivity|].
  apply (proj2 (proj2 constructed_names) "Bucket" sample_resource).
  reflexivity.
Defined.

(** X2. Every constructed Property, container or leaf, and every
    constructed Resource holds in [documentation] the value its definition
    has under [Documentation]. *)
Theorem documentation_is_stored :
  (forall name d p,
      Property.init name (VDict d) = Ok p ->
      Dict.get d "Documentation" = Some (Property.documentation p)) /\
  (forall name d r,
      Resource.init name (VDict d) = Ok r ->
      Dict.get d "Documentation" = Some (Resource.documentation r)).
Proof.
  split.
  - intros name d p H.
    destruct (Dict.get d "Properties") as [sub|] eqn:Hprops.
    + destruct (property_container_items _ _ _ _ Hprops H) as [items ->].
      destruct (property_container _ _ _ _ Hprops H)
        as (doc & Hdoc & _ & _ & Hd & _).
      now rewrite Hd.
    + rewrite (property_leaf _ _ Hprops) in H.
      destruct (Dict.get d "Documentation"); [|discriminate].
      destruct (Dict.get d "UpdateType") as [u|]; [|discriminate].
      destruct (Property.valid_update_type u); [|discriminate].
      destruct (Dict.get d "Required"); [|discriminate].
      destruct (Attribute.init name (VDict d)); [|discriminate].
      now injection H as <-.
  - intros name d r Hinit.
    destruct (resource_init_frames _ _ _ Hinit)
      as (doc & attrs & props & s & Hdoc & _ & _ & _ & _ & _ & _ & _ & Hd).
    now rewrite Hd.
Qed.

Lemma documentation_is_stored_witness :
  exists p,
    Property.init "Config" (VDict sample_container) = Ok p /\
    Dict.get sample_container "Documentation" =
    Some (Property.documentation p).
Proof.
  eexists. split; [reflexivity|].
  apply (proj1 documentation_is_stored "Config" sample_container).
  reflexivity.
Defined.

(** ** Definitions of the wrong shape *)

(** X3. A property or resource definition that is not a dict makes the
    constructor raise [TypeError] at its first subscript.  An attribute
    definition that is not a dict never gets a type: [None], a boolean or a
    number raises [TypeError] at the first [in], a string or a list either
    raises [TypeError] or yields an attribute with every field unset. *)
Theorem definition_must_be_dict (name : string) (v : value) :
  (forall d, v <> VDict d) ->
  Property.init name v = Raise TypeError /\
  Resource.init name v = Raise TypeError /\
  (Attribute.init name v = Raise TypeError \/
   Attribute.init name v = Ok (Attribute.fresh name)) /\
  ((forall s, v <> VStr s) -> (forall l, v <> VList l) ->
   Attribute.init name v = Raise TypeError).
Proof.
  intros Hv. split; [now apply property_parse_other|].
  split; [destruct v; try reflexivity; now destruct (Hv d)|].
  unfold Attribute.init, Attribute.parse. unfold_py.
  destruct v as [| | | | s | l | d]; simpl;
    try (split; [now left | reflexivity]).
  - split; [|intros Hs; now destruct (Hs s)].
    destruct (Py.substring "PrimitiveType" s); [now left|].
    destruct (Py.substring "Type" s); [now left | now right].
  - split; [|intros _ Hl; now destruct (Hl l)].
    destruct (existsb _ l); [now left|].
    destruct (existsb _ l); [now left | now right].
  - now destruct (Hv d).
Qed.

Lemma definition_must_be_dict_witness :
  Property.init "Names" (VStr "String") = Raise TypeError /\
  Resource.init "Names" (VStr "String") = Raise TypeError /\
  (Attribute.init "Names" (VStr "String") = Raise TypeError \/
   Attribute.init "Names" (VStr "String") = Ok (Attribute.fresh "Names")) /\
  ((forall s, VStr "String" <> VStr s) -> (forall l, VStr "String" <> VList l) ->
   Attribute.init "Names" (VStr "String") = Raise TypeError).
Proof.
  apply (definition_must_be_dict "Names" (VStr "String")). discriminate.
Defined.

(** X4. A [Properties] value of a property definition, and an [Attributes]
    or [Properties] value of a resource definition, that is present but not
    a dict (a [null] included) makes the constructor raise [AttributeError]
    once the keys read before it are found and, for a resource's
    [Properties], once every attribute is built. *)
Theorem entries_must_be_dict :
  (forall name d doc v,
      Dict.get d "Documentation" = Some doc ->
      Dict.get d "Properties" = Some v ->
      (forall items, v <> VDict items) ->
      Property.init name (VDict d) = Raise AttributeError) /\
  (forall name d doc v,
      Dict.get d "Documentation" = Some doc ->
      Dict.get d "Attributes" = Some v ->
      (forall attrs, v <> VDict attrs) ->
      Resource.init name (VDict d) = Raise AttributeError) /\
  (forall name d doc attrs v,
      Dict.get d "Documentation" = Some doc ->
      Dict.get d "Attributes" = Some (VDict attrs) ->
      Forall (fun kx => succeeds (Attribute.init (fst kx) (snd kx)) = true)
             attrs ->
      Dict.get d "Properties" = Some v ->
      (forall props, v <> VDict props) ->
      Resource.init name (VDict d) = Raise AttributeError).
Proof.
  split; [|split].
  - intros name d doc v Hdoc Hprops Hv. unfold Property.init.
    rewrite property_parse_dict, Hdoc, Hprops.
    destruct v; try reflexivity. now destruct (Hv d0).
  - intros name d doc v Hdoc Hattrs Hv.
    rewrite resource_init_dict, Hdoc, Hattrs.
    destruct v; try reflexivity. now destruct (Hv d0).
  - intros name d doc attrs v Hdoc Hattrs Hall Hprops Hv.
    rewrite resource_init_dict, Hdoc, Hattrs, Hprops.
    apply (for_items_succeeds Attribute.init Resource.set_attribute attrs
             (Resource.set_documentation doc (Resource.fresh name))) in Hall.
    unfold Resource.parse_attributes.
    change (Py.for_items _ attrs ?s)
      with (Py.for_items (build_body Attribute.init Resource.set_attribute)
              attrs s).
    destruct (Py.for_items _ attrs _) as [s|e]; [|discriminate]. cbn [bind].
    destruct v; try reflexivity. now destruct (Hv d0).
Qed.

Lemma entries_must_be_dict_witness :
  Property.init "Config"
    (VDict [("Documentation", VStr "d"); ("Properties", VNone)]) =
  Raise AttributeError.
Proof.
  apply (proj1 entries_must_be_dict "Config" _ (VStr "d") VNone);
    (reflexivity || discriminate).
Defined.

(** ** Which exception, and from which entry *)

(** X5. Keys are read in a fixed order and the first one missing is the
    one reported.  A property without [Properties]: [UpdateType] before
    [Required].  A resource: [Documentation], then [Attributes], then, once
    every attribute is built, [Properties]. *)
Theorem missing_key_is_reported :
  (forall name d doc,
      Dict.get d "Documentation" = Some doc ->
      Dict.get d "Properties" = None ->
      Dict.get d "UpdateType" = None ->
      Property.init name (VDict d) = Raise (KeyError "UpdateType")) /\
  (forall name d doc u,
      Dict.get d "Documentation" = Some doc ->
      Dict.get d "Properties" = None ->
      Dict.get d "UpdateType" = Some u ->
      Property.valid_update_type u = true ->
      Dict.get d "Required" = None ->
      Property.init name (VDict d) = Raise (KeyError "Required")) /\
  (forall name d,
      Dict.get d "Documentation" = None ->
      Resource.init name (VDict d) = Raise (KeyError "Documentation")) /\
  (forall name d doc,
      Dict.get d "Documentation" = Some doc ->
      Dict.get d "Attributes" = None ->
      Resource.init name (VDict d) = Raise (KeyError "Attributes")) /\
  (forall name d doc attrs,
      Dict.get d "Documentation" = Some doc ->
      Dict.get d "Attributes" = Some (VDict attrs) ->
      Forall (fun kx => succeeds (Attribute.init (fst kx) (snd kx)) = true)
             attrs ->
      Dict.get d "Properties" = None ->
      Resource.init name (VDict d) = Raise (KeyError "Properties")).
Proof.
  split; [|split; [|split; [|split]]].
  - intros name d doc Hdoc Hprops Hu.
    now rewrite (property_leaf _ _ Hprops), Hdoc, Hu.
  - intros name d doc u Hdoc Hprops Hu Hvalid Hr.
    now rewrite (property_leaf _ _ Hprops), Hdoc, Hu, Hvalid, Hr.
  - intros name d Hdoc. now rewrite resource_init_dict, Hdoc.
  - intros name d doc Hdoc Hattrs.
    now rewrite resource_init_dict, Hdoc, Hattrs.
  - intros name d doc attrs Hdoc Hattrs Hall Hprops.
    rewrite resource_init_dict, Hdoc, Hattrs, Hprops.
    apply (for_items_succeeds Attribute.init Resource.set_attribute attrs
             (Resource.set_documentation doc (Resource.fresh name))) in Hall.
    unfold Resource.parse_attributes.
    change (Py.for_items _ attrs ?s)
      with (Py.for_items (build_body Attribute.init Resource.set_attribute)
              attrs s).
    now destruct (Py.for_items _ attrs _) as [s|e]; [|discriminate].
Qed.

Lemma missing_key_is_reported_witness :
  Resource.init "Bucket"
    (VDict [("Documentation", VStr "r");
            ("Attributes", VDict sample_attributes)]) =
  Raise (KeyError "Properties").
Proof.
  apply (proj2 (proj2 (proj2 (proj2 missing_key_is_reported))) "Bucket" _
           (VStr "r") sample_attributes).
  - reflexivity.
  - reflexivity.
  - repeat constructor.
  - reflexivity.
Defined.





(** ** What the result depends on *)

Lemma same_on_get (keys : list string) (d d' : Dict.t value) (k : string) :
  same_on keys d d' -> In k keys -> Dict.get d k = Dict.get d' k.
Proof.
  unfold same_on. rewrite Forall_forall. intros H Hin. now apply H.
Qed.

Lemma same_on_incl (keys keys' : list string) (d d' : Dict.t value) :
  incl keys' keys -> same_on keys d d' -> same_on keys' d d'.
Proof.
  unfold same_on. rewrite !Forall_forall. intros Hincl H k Hk.
  apply H. now apply Hincl.
Qed.

Ltac key_in := simpl; tauto.

Lemma attribute_parse_same_on (d d' : Dict.t value) (self : Attribute.t) :
  same_on attribute_keys d d' ->
  Attribute.parse (VDict d) self = Attribute.parse (VDict d') self.
Proof.
  intros H. rewrite !attribute_parse_dict, !attribute_parse_item_dict.
  rewrite <- (same_on_get _ _ _ "PrimitiveType" H) by key_in.
  rewrite <- (same_on_get _ _ _ "Type" H) by key_in.
  rewrite <- (same_on_get _ _ _ "PrimitiveItemType" H) by key_in.
  rewrite <- (same_on_get _ _ _ "ItemType" H) by key_in.
  reflexivity.
Qed.

(** X7. The result of a constructor depends on its definition only through
    the keys the parser reads: four for an attribute, nine for a property,
    three for a resource.  Other keys and the order of the keys change
    nothing.  A property definition with a [Properties] key depends on
    [Documentation] and [Properties] alone, so its [UpdateType] and
    [Required] are neither required nor validated. *)
Theorem unread_keys_are_ignored (name : string) (d d' : Dict.t value) :
  (same_on attribute_keys d d' ->
   Attribute.init name (VDict d) = Attribute.init name (VDict d')) /\
  (same_on property_keys d d' ->
   Property.init name (VDict d) = Property.init name (VDict d')) /\
  (same_on resource_keys d d' ->
   Resource.init name (VDict d) = Resource.init name (VDict d')) /\
  (same_on ["Documentation"; "Properties"] d d' ->
   Dict.mem "Properties" d = true ->
   Property.init name (VDict d) = Property.init name (VDict d')).
Proof.
  split; [|split; [|split]].
  - intros H. now apply attribute_parse_same_on.
  - intros H. unfold Property.init. rewrite !property_parse_dict.
    rewrite <- (same_on_get _ _ _ "Documentation" H) by key_in.
    rewrite <- (same_on_get _ _ _ "Properties" H) by key_in.
    destruct (Dict.get d "Documentation") as [doc|]; [|reflexivity].
    destruct (Dict.get d "Properties"); [reflexivity|].
    rewrite !property_parse_leaf_dict.
    rewrite (attribute_parse_same_on d d')
      by (revert H; apply same_on_incl; intros k; unfold property_keys;
          rewrite in_app_iff; tauto).
    rewrite <- (same_on_get _ _ _ "UpdateType" H) by key_in.
    rewrite <- (same_on_get _ _ _ "Required" H) by key_in.
    rewrite <- (same_on_get _ _ _ "DuplicatesAllowed" H) by key_in.
    reflexivity.
  - intros H. rewrite !resource_init_dict.
    rewrite <- (same_on_get _ _ _ "Documentation" H) by key_in.
    rewrite <- (same_on_get _ _ _ "Attributes" H) by key_in.
    rewrite <- (same_on_get _ _ _ "Properties" H) by key_in.
    reflexivity.
  - intros H Hmem. unfold Property.init. rewrite !property_parse_dict.
    rewrite <- (same_on_get _ _ _ "Documentation" H) by key_in.
    rewrite <- (same_on_get _ _ _ "Properties" H) by key_in.
    unfold Dict.mem in Hmem.
    destruct (Dict.get d "Properties"); [reflexivity | discriminate].
Qed.

Lemma unread_keys_are_ignored_witness :
  Property.init "Names" (VDict sample_leaf) =
  Property.init "Names" (VDict sample_leaf_shuffled).
Proof.
  apply (proj1 (proj2 (unread_keys_are_ignored "Names" sample_leaf
                         sample_leaf_shuffled))).
  repeat constructor.
Defined.

(** ** Reading the built mappings *)

(** X9. In a Property built from a definition with a [Properties] dict,
    looking a name up in [properties] gives the Property built from the
    entry of that name under that name, and a name the dict does not have
    is not in [properties]; the same holds of [attributes] and [properties]
    of a Resource. *)
Theorem lookup_by_name (k : string) :
  (forall name d items p,
      Dict.get d "Properties" = Some (VDict items) ->
      Dict.wf items ->
      Property.init name (VDict d) = Ok p ->
      match Dict.get items k with
      | Some x => exists q, Dict.get (Property.properties p) k = Some q /\
                            Property.init k x = Ok q
      | None => Dict.get (Property.properties p) k = None
      end) /\
  (forall name d attrs props r,
      Dict.get d "Attributes" = Some (VDict attrs) ->
      Dict.get d "Properties" = Some (VDict props) ->
      Dict.wf attrs -> Dict.wf props ->
      Resource.init name (VDict d) = Ok r ->
      match Dict.get attrs k with
      | Some x => exists a, Dict.get (Resource.attributes r) k = Some a /\
                            Attribute.init k x = Ok a
      | None => Dict.get (Resource.attributes r) k = None
      end /\
      match Dict.get props k with
      | Some x => exists q, Dict.get (Resource.properties r) k = Some q /\
                            Property.init k x = Ok q
      | None => Dict.get (Resource.properties r) k = None
      end).
Proof.
  split.
  - intros name d items p Hprops Hwf Hinit.
    apply built_from_get.
    now apply (property_container_built name d).
  - intros name d attrs props r Hattrs Hprops Hwfa Hwfp Hinit.
    destruct (resource_init_built _ _ _ _ _ Hattrs Hprops Hwfa Hwfp Hinit)
      as [Ha Hp].
    split; now apply built_from_get.
Qed.

Lemma lookup_by_name_witness :
  exists p,
    Property.init "Config" (VDict sample_container) = Ok p /\
    match Dict.get sample_subproperties "Size" with
    | Some x => exists q, Dict.get (Property.properties p) "Size" = Some q /\
                          Property.init "Size" x = Ok q
    | None => Dict.get (Property.properties p) "Size" = None
    end.
Proof.
  eexists. split; [reflexivity|].
  apply (proj1 (lookup_by_name "Size") "Config" sample_container
           sample_subproperties).
  - reflexivity.
  - repeat constructor. simpl. tauto.
  - reflexivity.
Defined.

(** X10. A constructed Property tells its two shapes apart by
    [update_type]: it is unset exactly when the definition has a
    [Properties] key; without that key the Property has an accepted update
    type and no nested properties. *)
Theorem update_type_tells_container (name : string) (d : Dict.t value)
    (p : Property.t) :
  Property.init name (VDict d) = Ok p ->
  (Property.update_type p = VNone <-> Dict.mem "Properties" d = true) /\
  (Dict.mem "Properties" d = false ->
   Property.valid_update_type (Property.update_type p) = true /\
   Property.properties p = []).
Proof.
  intros H. unfold Dict.mem.
  destruct (Dict.get d "Properties") as [sub|] eqn:Hprops.
  - destruct (property_container_items _ _ _ _ Hprops H) as [items ->].
    destruct (property_container _ _ _ _ Hprops H)
      as (_ & _ & _ & _ & _ & _ & Hu & _).
    split; [now split | discriminate].
  - rewrite (property_leaf _ _ Hprops) in H.
    destruct (Dict.get d "Documentation"); [|discriminate].
    destruct (Dict.get d "UpdateType") as [u|]; [|discriminate].
    destruct (Property.valid_update_type u) eqn:Hu; [|discriminate].
    destruct (Dict.get d "Required"); [|discriminate].
    destruct (Attribute.init name (VDict d)); [|discriminate].
    injection H as <-. cbn. split; [|now split].
    split; [|discriminate]. intros ->. discriminate.
Qed.

Lemma update_type_tells_container_witness :
  exists p,
    Property.init "Config" (VDict sample_container) = Ok p /\
    (Property.update_type p = VNone <->
     Dict.mem "Properties" sample_container = true).
Proof.
  eexists. split; [reflexivity|].
  apply (update_type_tells_container "Config" sample_container).
  reflexivity.
Defined.

(** ** The name is only stored *)

Lemma for_items_commute {A B S : Type} (build : string -> A -> result B)
    (store : string -> B -> S -> S) (h : S -> S) (items : Dict.t A) :
  (forall k b s, h (store k b s) = store k b (h s)) ->
  forall s,
    Py.for_items (build_body build store) items (h s) =
    result_map h (Py.for_items (build_body build store) items s).
Proof.
  intros Hh. induction items as [|[k x] rest IH]; intros s; simpl;
    [reflexivity|].
  unfold build_body at 1 3. destruct (build k x) as [b|e]; simpl;
    [|reflexivity].
  now rewrite <- Hh, IH.
Qed.

Lemma attribute_parse_rename (name : string) (v : value) (self : Attribute.t) :
  Attribute.parse v (attribute_rename name self) =
  result_map (attribute_rename name) (Attribute.parse v self).
Proof.
  unfold Attribute.parse, Attribute.parse_item, bind.
  repeat match goal with
         | |- context [match ?x with _ => _ end] => destruct x
         end; reflexivity.
Qed.

(** X11. The name handed to a constructor is stored and nothing else: the
    same definition under another name raises the same exception or yields
    the same object with only its own name changed. *)
Theorem name_is_only_stored (name name' : string) (v : value) :
  Attribute.init name' v =
  result_map (attribute_rename name') (Attribute.init name v) /\
  Property.init name' v =
  result_map (property_rename name') (Property.init name v) /\
  Resource.init name' v =
  result_map (resource_rename name') (Resource.init name v).
Proof.
  split; [|split].
  - apply (attribute_parse_rename name' v (Attribute.fresh name)).
  - destruct v as [| | | | | |d]; try reflexivity.
    unfold Property.init. rewrite !property_parse_dict.
    destruct (Dict.get d "Documentation") as [doc|]; [|reflexivity].
    destruct (Dict.get d "Properties") as [[| | | | | |items]|];
      try reflexivity.
    + apply (for_items_commute Property.init Property.set_property
               (property_rename name') items (fun _ _ _ => eq_refl)
               (Property.set_documentation doc (Property.fresh name))).
    + rewrite !property_parse_leaf_dict.
      destruct (Dict.get d "UpdateType") as [u|]; [|reflexivity].
      destruct (Property.valid_update_type u); [|reflexivity].
      destruct (Dict.get d "Required"); [|reflexivity].
      change (Property.base
                (Property.set_documentation doc (Property.fresh name')))
        with (attribute_rename name' (Attribute.fresh name)).
      rewrite attribute_parse_rename.
      change (Property.base
                (Property.set_documentation doc (Property.fresh name)))
        with (Attribute.fresh name).
      now destruct (Attribute.parse (VDict d) (Attribute.fresh name)).
  - destruct v as [| | | | | |d]; try reflexivity.
    rewrite !resource_init_dict.
    destruct (Dict.get d "Documentation") as [doc|]; [|reflexivity].
    destruct (Dict.get d "Attributes") as [[| | | | | |attrs]|];
      try reflexivity.
    unfold Resource.parse_attributes, Resource.parse_properties.
    change (Py.for_items _ attrs ?s)
      with (Py.for_items (build_body Attribute.init Resource.set_attribute)
              attrs s).
    change (Resource.set_documentation doc (Resource.fresh name'))
      with (resource_rename name'
              (Resource.set_documentation doc (Resource.fresh name))).
    rewrite (for_items_commute Attribute.init Resource.set_attribute
               (resource_rename name') attrs (fun _ _ _ => eq_refl)
               (Resource.set_documentation doc (Resource.fresh name))).
    destruct (Py.for_items _ attrs _) as [s|e]; [|reflexivity].
    cbn [bind result_map].
    destruct (Dict.get d "Properties") as [[| | | | | |props]|];
      try reflexivity.
    apply (for_items_commute Property.init Resource.set_property
             (resource_rename name') props (fun _ _ _ => eq_refl) s).
Qed.
